(** * Trend service: the keyword acquisition scripts

    A shallow embedding of the two command-line scripts of the trend
    service,

    - [services/trend-service/pytrends_fetch_DDONG.py] (module [Trending]):
      the tiered whole-country trending pipeline, and
    - [services/trend-service/pytrends_fetch.py] (module [Rising]): the
      older "rising related queries" pipeline,

    together with the properties their design document states about them.

    Python values are modelled by the observations the scripts make of
    them (truth test, [str()], JSON serialisation); a [str] is a Rocq
    [string] whose characters are read as code points below 256.  The
    pytrends client and the clock are the environment: they are the
    variables of the sections below.  The three output channels of a run
    (standard output, standard error, requests to the client) are kept in
    an explicit [world] threaded through a small state-and-exception
    monad. *)

From Stdlib Require Import Ascii.
From stdpp Require Import base option list strings gmap pretty.

Set Warnings "-register-all,-clear-no-such-hyp".
Local Open Scope string_scope.
Local Open Scope list_scope.
Local Open Scope Z_scope.

(** ** Python strings *)

(** [str.isspace] on the code points below 256. *)
Definition is_space (a : ascii) : bool :=
  let n := Z.of_nat (nat_of_ascii a) in
  ((9 <=? n) && (n <=? 13)) || ((28 <=? n) && (n <=? 32))
  || (n =? 133) || (n =? 160).

Fixpoint lstrip (s : string) : string :=
  match s with
  | String a s' => if is_space a then lstrip s' else s
  | EmptyString => EmptyString
  end.

Definition rstrip (s : string) : string := String.rev (lstrip (String.rev s)).

(** [s.strip()] *)
Definition strip (s : string) : string := rstrip (lstrip s).

(** Truth value of a [str]: non-empty. *)
Definition nonempty (s : string) : bool :=
  match s with EmptyString => false | String _ _ => true end.

(** ** Exceptions and computations that may raise *)

(** The exceptions the scripts can observe are all subclasses of
    [Exception]; pytrends' [ResponseError] is told apart because [main]
    has a handler of its own for it. *)
Inductive exn : Type :=
| ResponseError (msg : string)
| PyException (msg : string).

Inductive fallible (A : Type) : Type :=
| Ok (a : A)
| Err (e : exn).
Arguments Ok {A} a.
Arguments Err {A} e.

#[global] Instance fallible_ret : MRet fallible := λ A a, Ok a.
#[global] Instance fallible_bind : MBind fallible := λ A B k r,
  match r with Ok a => k a | Err e => Err e end.

(** ** Python values *)

(** An object the scripts know nothing about (a float, a list, a numpy
    scalar, [pd.NA], a [Series], ...), described by what [bool()], [str()]
    and [json.dumps] do on it. *)
Record pyobject : Type := PyObject {
  obj_bool : fallible bool;
  obj_str : fallible string;
  obj_json : bool
}.

(** The values found in the cells of a table. *)
Inductive scalar : Type :=
| PNone
| PBool (b : bool)
| PInt (z : Z)
| PStr (s : string)
| PObj (o : pyobject).

(** [bool(v)], as in [if v:]. *)
Definition py_bool (v : scalar) : fallible bool :=
  match v with
  | PNone => Ok false
  | PBool b => Ok b
  | PInt z => Ok (negb (z =? 0))
  | PStr s => Ok (nonempty s)
  | PObj o => obj_bool o
  end.

(** [str(v)] *)
Definition py_str (v : scalar) : fallible string :=
  match v with
  | PNone => Ok "None"
  | PBool true => Ok "True"
  | PBool false => Ok "False"
  | PInt z => Ok (pretty z)
  | PStr s => Ok s
  | PObj o => obj_str o
  end.

(** The values of the result document. *)
Inductive pyval : Type :=
| Atom (v : scalar)
| PyList (l : list pyval)
| PyDict (d : list (string * pyval)).

(** [d[k]] / [d.get(k)] on a dict literal. *)
Fixpoint dict_get (k : string) (d : list (string * pyval)) : option pyval :=
  match d with
  | [] => None
  | (k', v) :: d' => if decide (k = k') then Some v else dict_get k d'
  end.

(** ** The deduplication loop

    [seen = set(); uniq = []; for k in out: if k not in seen: ...], the
    last loop of [_safe_extract_keywords_from_df]. *)
Fixpoint uniq_loop (seen : gset string) (uniq : list string) (out : list string)
  : list string :=
  match out with
  | [] => uniq
  | k :: rest =>
      if decide (k ∈ seen) then uniq_loop seen uniq rest
      else uniq_loop ({[k]} ∪ seen) (uniq ++ [k]) rest
  end.

Definition Deduplicator (out : list string) : list string := uniq_loop ∅ [] out.

(** ** Tables

    A pandas [DataFrame] as the scripts see it: the ordered column labels
    ([df.columns]) and the rows that [df.iterrows()] yields, each a
    [Series] indexed by column label.  Labels are strings or integers
    (a single-column frame built from a list has the label [0]).  Column
    labels are distinct, as in every frame pytrends builds, so a row is a
    finite map from label to cell.  Reading a cell may itself raise. *)
Inductive label : Type :=
| LStr (s : string)
| LInt (z : Z).

#[global] Instance label_eq_dec : EqDecision label.
Proof. solve_decision. Defined.

#[global] Instance label_countable : Countable label.
Proof.
  refine (inj_countable'
    (λ l, match l with LStr s => inl s | LInt z => inr z end)
    (λ x, match x with inl s => LStr s | inr z => LInt z end) _).
  by intros [].
Defined.

Inductive cell : Type :=
| CellVal (v : scalar)
| CellErr (e : exn).

Abbreviation Series := (gmap label cell).

Record DataFrame : Type := mkDataFrame {
  columns : list label;
  rows : list Series
}.

(** [df.empty]: some axis has length zero. *)
Definition df_empty (df : DataFrame) : bool :=
  match columns df, rows df with
  | [], _ | _, [] => true
  | _, _ => false
  end.

(** [row.get(c)]: the cell, [None] when the label is missing. *)
Definition row_get (row : Series) (c : label) : fallible scalar :=
  match row !! c with
  | None => Ok PNone
  | Some (CellVal v) => Ok v
  | Some (CellErr e) => Err e
  end.

(** [row[c]]: the cell, [KeyError] when the label is missing. *)
Definition row_getitem (row : Series) (c : label) : fallible scalar :=
  match row !! c with
  | None => Err (PyException "KeyError")
  | Some (CellVal v) => Ok v
  | Some (CellErr e) => Err e
  end.

(** ** The defensive row extractor ([_safe_extract_keywords_from_df]) *)

Definition preferred_cols : list label := [LStr "query"; LStr "title"; LStr "keyword"].

(** Lines 67-76: the preferred names that are present, then the first
    column as the fallback. *)
Definition candidate_cols (cols : list label) : list label :=
  let candidate_cols := filter (λ c, c ∈ cols) preferred_cols in
  match cols with
  | c0 :: _ => candidate_cols ++ [c0]
  | [] => candidate_cols
  end.

(** Lines 81-89: the scan of the candidate columns of one row.  Only
    [row.get(c)] sits inside the [try]; the truth test and [str()] do
    not. *)
Fixpoint scan_candidates (row : Series) (cands : list label) (kw : option string)
  : fallible (option string) :=
  match cands return fallible (option string) with
  | [] => Ok kw
  | c :: rest =>
      let v := match row_get row c with Ok v => v | Err _ => PNone end in
      (b ← py_bool v;
       if (b : bool) then
         (s ← py_str v;
          let kw := strip s in
          if nonempty kw then Ok (Some kw)
          else scan_candidates row rest (Some kw))
       else scan_candidates row rest kw)
  end.

(** Lines 78-91: the loop over the rows; [kw] holds [None] or a [str],
    and [if kw:] lets a non-empty [str] through. *)
Fixpoint rows_loop (cands : list label) (rs : list Series) (out : list string)
  : fallible (list string) :=
  match rs return fallible (list string) with
  | [] => Ok out
  | row :: rest =>
      (kw ← scan_candidates row cands None;
       rows_loop cands rest
         (match kw with
          | Some k => if nonempty k then out ++ [k] else out
          | None => out
          end))
  end.

Definition _safe_extract_keywords_from_df (df : option DataFrame)
  : fallible (list string) :=
  match df with
  | None => Ok []
  | Some df =>
      if df_empty df then Ok []
      else
        let cols := columns df in
        (out ← rows_loop (candidate_cols cols) (rows df) [];
         Ok (uniq_loop ∅ [] out))
  end.

(** ** [int(s)] on the command-line day count

    [int()] skips the whitespace before the literal, reads one optional
    sign and then the run of decimal digits and underscores, in which
    single underscores may separate digits; it refuses a run of more
    than 4300 digits (the interpreter's limit for integer string
    conversion); and it accepts nothing but whitespace after the run.
    Its whitespace is narrower than that of [str.strip]: the code points
    28 to 31 are not skipped. *)
Definition int_space (a : ascii) : bool :=
  let n := Z.of_nat (nat_of_ascii a) in
  ((9 <=? n) && (n <=? 13)) || (n =? 32) || (n =? 133) || (n =? 160).

Fixpoint skip_spaces (s : string) : string :=
  match s with
  | String a s' => if int_space a then skip_spaces s' else s
  | EmptyString => EmptyString
  end.

Definition digit_of (a : ascii) : option Z :=
  let n := Z.of_nat (nat_of_ascii a) in
  if (48 <=? n) && (n <=? 57) then Some (n - 48) else None.

Definition is_digit (a : ascii) : bool :=
  match digit_of a with Some _ => true | None => false end.

(** The longest prefix made of digits and underscores, and what follows
    it. *)
Fixpoint digit_run (s : string) : string * string :=
  match s with
  | String a s' =>
      if is_digit a || Ascii.eqb a "_"
      then match digit_run s' with (run, rest) => (String a run, rest) end
      else (EmptyString, s)
  | EmptyString => (EmptyString, EmptyString)
  end.

Fixpoint digit_count (s : string) : Z :=
  match s with
  | String a s' => (if is_digit a then 1 else 0) + digit_count s'
  | EmptyString => 0
  end.

Fixpoint parse_digits (s : string) (acc : Z) (after_digit : bool) : option Z :=
  match s with
  | EmptyString => if after_digit then Some acc else None
  | String a s' =>
      match digit_of a with
      | Some d => parse_digits s' (10 * acc + d) true
      | None =>
          if Ascii.eqb a "_" && after_digit then parse_digits s' acc false
          else None
      end
  end.

Definition max_str_digits : Z := 4300.

Definition py_int (s : string) : fallible Z :=
  let value_error := Err (PyException "ValueError: invalid literal for int()") in
  let literal (negative : bool) (t : string) : fallible Z :=
    match digit_run t with
    | (run, rest) =>
        match parse_digits run 0 false with
        | None => value_error
        | Some n =>
            if max_str_digits <? digit_count run
            then Err (PyException "ValueError: Exceeds the limit (4300 digits) for integer string conversion")
            else
              match skip_spaces rest with
              | EmptyString => Ok (if negative then - n else n)
              | String _ _ => value_error
              end
        end
    end in
  match skip_spaces s with
  | String "+" r => literal false r
  | String "-" r => literal true r
  | t => literal false t
  end.

(** ** The world of a run *)

(** Requests made to the pytrends client, its construction included. *)
Inductive call : Type :=
| NewTrendReq
| RealtimeTrendingSearches (pn : string)
| TrendingSearches (pn : string)
| DailySearchTrends (pn date : string)
| BuildPayload (kw_list : list string) (cat : Z) (timeframe geo gprop : string)
| RelatedQueries.

(** The lines written to standard error, one constructor per [log(...)]
    call site (the text of a line is its constructor, its fields are the
    values formatted into it), plus the two lines the interpreter and
    argparse write by themselves. *)
Inductive diag : Type :=
| LogStart (region geo pn : string) (days : Z) (prefer_youtube : bool)
| LogAttempt (name pn : string)
| LogAttemptDated (name pn date : string)
| LogSuccess (name : string) (count : nat)
| LogEmpty (name : string)
| LogFailed (name : string) (e : exn)
| LogYoutubeAttempt (seed geo timeframe : string)
| LogYoutubeCount (count : nat)
| LogYoutubeResponseError (e : exn)
| LogYoutubeException (e : exn)
| LogDone (source : string) (count : nat)
| LogRisingStart (geo timeframe : string)
| LogRisingFound (count : nat)
| LogRisingNone
| LogFatal (e : exn)
| Traceback (e : exn)
| Usage.

Record world : Type := mkWorld {
  stdout : list pyval;
  stderr : list diag;
  requests : list call
}.

Definition fresh : world := mkWorld [] [] [].

(** How a computation ends: with a value, with an exception, or with
    [SystemExit], which no [except Exception] clause catches. *)
Inductive outcome (A : Type) : Type :=
| Ret (a : A)
| Raise (e : exn)
| Exit (code : Z).
Arguments Ret {A} a.
Arguments Raise {A} e.
Arguments Exit {A} code.

Definition M (A : Type) : Type := world → outcome A * world.

#[global] Instance M_ret : MRet M := λ A a w, (Ret a, w).

#[global] Instance M_bind : MBind M := λ A B k m w,
  match m w with
  | (Ret a, w') => k a w'
  | (Raise e, w') => (Raise e, w')
  | (Exit c, w') => (Exit c, w')
  end.

Definition lift {A} (r : fallible A) : M A :=
  λ w, match r with Ok a => (Ret a, w) | Err e => (Raise e, w) end.

(** [try: body / except Exception as e: handler]. *)
Definition try_except {A} (body : M A) (handler : exn → M A) : M A :=
  λ w, match body w with
       | (Raise e, w') => handler e w'
       | r => r
       end.

(** [log(msg)]: one line on standard error. *)
Definition log (d : diag) : M unit :=
  λ w, (Ret (), mkWorld (stdout w) (stderr w ++ [d]) (requests w)).

(** [print(text)]: one write to standard output. *)
Definition print (doc : pyval) : M unit :=
  λ w, (Ret (), mkWorld (stdout w ++ [doc]) (stderr w) (requests w)).

Definition request (c : call) : M unit :=
  λ w, (Ret (), mkWorld (stdout w) (stderr w) (requests w ++ [c])).

(** [sys.exit(code)] *)
Definition sys_exit {A} (code : Z) : M A := λ w, (Exit code, w).

(** What the operating system sees of a program: its exit status and the
    channels.  An exception nobody caught ends the interpreter with a
    traceback on standard error and status 1. *)
Definition run (prog : M unit) : Z * world :=
  match prog fresh with
  | (Ret _, w) => (0, w)
  | (Raise e, w) => (1, mkWorld (stdout w) (stderr w ++ [Traceback e]) (requests w))
  | (Exit c, w) => (c, w)
  end.

Definition exit_code (prog : M unit) : Z := (run prog).1.
Definition written (prog : M unit) : list pyval := stdout (run prog).2.
Definition contacted (prog : M unit) : list call := requests (run prog).2.
Definition narrated (prog : M unit) : list diag := stderr (run prog).2.

(** ** The pytrends client

    What the external source answers, request by request.  Every method
    may raise; the feeds answer with a table or with [None]; the related
    queries are a dict of dicts of tables. *)
Record TrendReq : Type := mkTrendReq {
  tr_init : fallible unit;
  tr_realtime_trending_searches : string → fallible (option DataFrame);
  tr_trending_searches : string → fallible (option DataFrame);
  tr_daily_search_trends : string → string → fallible (option DataFrame);
  tr_build_payload : list string → Z → string → string → string → fallible unit;
  tr_related_queries : fallible (gmap string (gmap string (option DataFrame)))
}.

(** ** Command line

    The command line as argparse tokenises it: the value given to each
    option, whether the flag is present, and the tokens it cannot place. *)
Record argv : Type := mkArgv {
  arg_region : option string;
  arg_days : option string;
  arg_prefer_youtube : bool;
  arg_extra : list string
}.

Record Namespace : Type := mkNamespace {
  region : string;
  days : string;
  prefer_youtube : bool
}.

(** [parser.error(...)]: usage on standard error, status 2. *)
Definition parser_error {A} : M A := log Usage ;; sys_exit 2.

(** The [result] dict of [main]. *)
Record ResultDocument : Type := mkResult {
  res_region : string;
  res_days : Z;
  res_items : list pyval;
  res_keywords : list pyval
}.

Definition to_dict (r : ResultDocument) : pyval :=
  PyDict [("region", Atom (PStr (res_region r)));
          ("days", Atom (PInt (res_days r)));
          ("items", PyList (res_items r));
          ("keywords", PyList (res_keywords r))].

(** Can [json.dumps] serialise the value? *)
Fixpoint serialisable (v : pyval) : bool :=
  match v with
  | Atom (PObj o) => obj_json o
  | Atom _ => true
  | PyList l => forallb serialisable l
  | PyDict d => forallb (λ kv, match kv with (_, x) => serialisable x end) d
  end.

(** [json.dumps(v, ensure_ascii=False)]; the text is represented by the
    value it serialises. *)
Definition json_dumps (v : pyval) : fallible pyval :=
  if serialisable v then Ok v
  else Err (PyException "TypeError: Object is not JSON serializable").

(** The client methods as the scripts call them: the request is made,
    then the source answers. *)
Section Client.
Variable pytrends : TrendReq.

Definition new_TrendReq : M unit :=
  request NewTrendReq ;; lift (tr_init pytrends).

Definition realtime_trending_searches (pn : string) : M (option DataFrame) :=
  request (RealtimeTrendingSearches pn) ;;
  lift (tr_realtime_trending_searches pytrends pn).

Definition trending_searches (pn : string) : M (option DataFrame) :=
  request (TrendingSearches pn) ;;
  lift (tr_trending_searches pytrends pn).

Definition daily_search_trends (pn date : string) : M (option DataFrame) :=
  request (DailySearchTrends pn date) ;;
  lift (tr_daily_search_trends pytrends pn date).

Definition build_payload (kw_list : list string) (cat : Z)
    (timeframe geo gprop : string) : M unit :=
  request (BuildPayload kw_list cat timeframe geo gprop) ;;
  lift (tr_build_payload pytrends kw_list cat timeframe geo gprop).

Definition related_queries : M (gmap string (gmap string (option DataFrame))) :=
  request RelatedQueries ;; lift (tr_related_queries pytrends).
End Client.

(** [rq.get(seed, {}).get("rising")] *)
Definition rising_of (seed : string)
    (rq : gmap string (gmap string (option DataFrame))) : option DataFrame :=
  default None (default ∅ (rq !! seed) !! "rising").

(** ** [pytrends_fetch_DDONG.py] *)
Module Trending.

Definition REGION_GEO_MAP : gmap string string :=
  list_to_map [("KR", "KR"); ("US", "US"); ("MX", "MX")].

Definition REGION_PN_MAP : gmap string string :=
  list_to_map [("KR", "south_korea"); ("US", "united_states"); ("MX", "mexico")].

(** [parser.parse_args()] for [--region] (required, with choices),
    [--days] (default ["7"]) and the flag [--prefer_youtube]. *)
Definition parse_args (a : argv) : M Namespace :=
  match arg_extra a with
  | _ :: _ => parser_error
  | [] =>
      match arg_region a with
      | None => parser_error
      | Some r =>
          if decide (r ∈ ["KR"; "US"; "MX"]) then
            mret (mkNamespace r (default "7" (arg_days a)) (arg_prefer_youtube a))
          else parser_error
      end
  end.

Section Run.
Variable pytrends : TrendReq.
(** [datetime.now().strftime("%Y-%m-%d")] *)
Variable today : string.

(** One [try] block of [fetch_trending_keywords]; the three blocks
    differ in the method called, its name and the opening log line.
    [Some r] stands for [return r] inside the block, [None] for
    falling out of it. *)
Definition tier (name : string) (opening : diag)
    (method : M (option DataFrame)) : M (option (list string * string)) :=
  try_except
    (log opening ;;
     df ← method;
     kws ← lift (_safe_extract_keywords_from_df df);
     match kws with
     | _ :: _ => log (LogSuccess name (length kws)) ;; mret (Some (kws, name))
     | [] => log (LogEmpty name) ;; mret None
     end)
    (λ e, log (LogFailed name e) ;; mret None).

Definition fetch_trending_keywords (pn : string) : M (list string * string) :=
  r ← tier "realtime_trending_searches"
         (LogAttempt "realtime_trending_searches" pn)
         (realtime_trending_searches pytrends pn);
  match r with
  | Some found => mret found
  | None =>
  r ← tier "trending_searches"
         (LogAttempt "trending_searches" pn)
         (trending_searches pytrends pn);
  match r with
  | Some found => mret found
  | None =>
  let today_str := today in
  r ← tier "daily_search_trends"
         (LogAttemptDated "daily_search_trends" pn today_str)
         (daily_search_trends pytrends pn today_str);
  match r with
  | Some found => mret found
  | None => mret ([], "none")
  end end end.

(** Lines 168-172: the rows of the rising table. *)
Fixpoint rising_rows_loop (rs : list Series) (kws : list string)
  : fallible (list string) :=
  match rs return fallible (list string) with
  | [] => Ok kws
  | row :: rest =>
      q ← row_get row (LStr "query");
      b ← py_bool q;
      if (b : bool) then
        (s ← py_str q; rising_rows_loop rest (kws ++ [strip s]))
      else rising_rows_loop rest kws
  end.

(** Lines 175-180: [if k and k not in seen]. *)
Fixpoint uniq_nonempty_loop (seen : gset string) (uniq : list string)
    (kws : list string) : list string :=
  match kws with
  | [] => uniq
  | k :: rest =>
      if nonempty k && bool_decide (k ∉ seen)
      then uniq_nonempty_loop ({[k]} ∪ seen) (uniq ++ [k]) rest
      else uniq_nonempty_loop seen uniq rest
  end.

Definition fetch_youtube_like_keywords_experimental (geo : string) (days : Z)
  : M (list string) :=
  let timeframe := "now " +:+ pretty days +:+ "-d" in
  let seed := "youtube" in
  log (LogYoutubeAttempt seed geo timeframe) ;;
  build_payload pytrends [seed] 0 timeframe geo "youtube" ;;
  rq ← related_queries pytrends;
  match rising_of seed rq with
  | None => mret []
  | Some rising_df =>
      if df_empty rising_df then mret []
      else
        kws ← lift (rising_rows_loop (rows rising_df) []);
        let uniq := uniq_nonempty_loop ∅ [] kws in
        log (LogYoutubeCount (length uniq)) ;;
        mret uniq
  end.

(** Lines 232-235: one item and one keyword per keyword found. *)
Definition add_keyword (today_str : string) (result : ResultDocument)
    (kw : string) : ResultDocument :=
  let item := PyDict [("date", Atom (PStr today_str));
                      ("keyword", Atom (PStr kw));
                      ("traffic", Atom (PStr ""))] in
  mkResult (res_region result) (res_days result)
           (res_items result ++ [item])
           (res_keywords result ++ [Atom (PStr kw)]).

Definition main (a : argv) : M unit :=
  args ← parse_args a;
  days ← lift (py_int (days args));
  let result := mkResult (region args) days [] [] in
  let geo := default "KR" (REGION_GEO_MAP !! region args) in
  let pn := default "south_korea" (REGION_PN_MAP !! region args) in
  let today_str := today in
  log (LogStart (region args) geo pn days (prefer_youtube args)) ;;
  result ← try_except
    (new_TrendReq pytrends ;;
     '(keywords, source) ←
       (if prefer_youtube args then
          try_except
            (keywords ← fetch_youtube_like_keywords_experimental geo days;
             mret (keywords, "youtube_experimental_related_queries"))
            (λ e, match e with
                  | ResponseError _ =>
                      log (LogYoutubeResponseError e) ;; mret ([], "none")
                  | _ => log (LogYoutubeException e) ;; mret ([], "none")
                  end)
        else mret ([], "none"));
     '(keywords, source) ←
       (match keywords with
        | [] => fetch_trending_keywords pn
        | _ :: _ => mret (keywords, source)
        end);
     let result := foldl (add_keyword today_str) result keywords in
     log (LogDone source (length (res_items result))) ;;
     mret result)
    (λ e, log (LogFatal e) ;; sys_exit 1);
  text ← lift (json_dumps (to_dict result));
  print text.
End Run.
End Trending.

(** ** [pytrends_fetch.py] *)
Module Rising.

Definition REGION_GEO_MAP : gmap string string :=
  list_to_map [("KR", "KR"); ("US", "US"); ("MX", "MX")].

(** [parser.parse_args()] for [--region] and [--days]; this script has
    no [--prefer_youtube], so the flag is an unrecognised argument. *)
Definition parse_args (a : argv) : M Namespace :=
  match arg_extra a with
  | _ :: _ => parser_error
  | [] =>
      if arg_prefer_youtube a then parser_error
      else
        match arg_region a with
        | None => parser_error
        | Some r =>
            if decide (r ∈ ["KR"; "US"; "MX"]) then
              mret (mkNamespace r (default "7" (arg_days a)) false)
            else parser_error
        end
  end.

Section Run.
Variable pytrends : TrendReq.
Variable today : string.

(** Lines 76-87: one item per row; the same dict is appended to
    [items] and to [keywords], and is not changed afterwards. *)
Fixpoint rows_loop (rs : list Series) (result : ResultDocument)
  : fallible ResultDocument :=
  match rs return fallible ResultDocument with
  | [] => Ok result
  | row :: rest =>
      keyword ← row_getitem row (LStr "query");
      value ← row_getitem row (LStr "value");
      traffic ← py_str value;
      let item := PyDict [("date", Atom (PStr today));
                          ("keyword", Atom keyword);
                          ("traffic", Atom (PStr traffic))] in
      rows_loop rest
        (mkResult (res_region result) (res_days result)
                  (res_items result ++ [item])
                  (res_keywords result ++ [item]))
  end.

Definition main (a : argv) : M unit :=
  args ← parse_args a;
  days_int ← lift (py_int (days args));
  let result := mkResult (region args) days_int [] [] in
  let geo := default "KR" (REGION_GEO_MAP !! region args) in
  let timeframe := "now " +:+ days args +:+ "-d" in
  log (LogRisingStart geo timeframe) ;;
  result ← try_except
    (new_TrendReq pytrends ;;
     build_payload pytrends [""] 0 timeframe geo "youtube" ;;
     related_queries ← related_queries pytrends;
     let rising_data := rising_of "" related_queries in
     match rising_data with
     | Some df =>
         if df_empty df then log LogRisingNone ;; mret result
         else
           log (LogRisingFound (length (rows df))) ;;
           lift (rows_loop (rows df) result)
     | None => log LogRisingNone ;; mret result
     end)
    (λ e, log (LogFatal e) ;; sys_exit 1);
  text ← lift (json_dumps (to_dict result));
  print text.
End Run.
End Rising.

(** The two scripts, as programs taking a command line. *)
Inductive script : Type := TrendingScript | RisingScript.

Definition program (v : script) (pytrends : TrendReq) (today : string) (a : argv)
  : M unit :=
  match v with
  | TrendingScript => Trending.main pytrends today a
  | RisingScript => Rising.main pytrends today a
  end.

(** * Notions used to state the properties *)

(** ** Deduplication *)

(** The entries of [l] that do not occur earlier in [l], in the order of
    [l]: what is left when every repeated value is removed and the first
    occurrence keeps its place. *)
Definition first_occurrences (l : list string) : list string :=
  omap id (imap (λ i k, if decide (k ∈ take i l) then None else Some k) l).

(** ** Extraction *)

(** Lines 67-91: the list [out] that the loop over the rows builds. *)
Definition row_keywords (df : DataFrame) : fallible (list string) :=
  rows_loop (candidate_cols (columns df)) (rows df) [].

(** Lines 64-91, the extraction stage: [out] as the deduplication loop
    of lines 93-100 receives it ([[]] for an absent or empty table). *)
Definition extracted (df : option DataFrame) : fallible (list string) :=
  match df with
  | None => Ok []
  | Some df => if df_empty df then Ok [] else row_keywords df
  end.

(** How many times [k] occurs in [l]. *)
Definition occurrences (k : string) (l : list string) : nat :=
  length (filter (λ x, x = k) l).

(** A value the extractor can look at without an exception: its truth
    test succeeds and, when it is truthy, so does [str()]. *)
Definition well_behaved (v : scalar) : bool :=
  match py_bool v with
  | Ok true => match py_str v with Ok _ => true | Err _ => false end
  | Ok false => true
  | Err _ => false
  end.

Definition plain_cell (c : cell) : bool :=
  match c with CellVal v => well_behaved v | CellErr _ => true end.

Definition plain_row (row : Series) : Prop :=
  map_Forall (λ _ c, plain_cell c = true) row.

Definition plain_frame (df : DataFrame) : Prop := Forall plain_row (rows df).

(** The keyword a cell offers: the trimmed text of a truthy value, when
    that text is not empty.  A missing label and a cell that cannot be
    read offer nothing. *)
Definition offered (c : option cell) : option string :=
  match c with
  | Some (CellVal v) =>
      match py_bool v, py_str v with
      | Ok true, Ok s => let k := strip s in if nonempty k then Some k else None
      | _, _ => None
      end
  | Some (CellErr _) | None => None
  end.

(** The keyword of a row: what the first candidate column that offers
    one offers. *)
Fixpoint row_keyword (cands : list label) (row : Series) : option string :=
  match cands with
  | [] => None
  | c :: rest =>
      match offered (row !! c) with
      | Some k => Some k
      | None => row_keyword rest row
      end
  end.

(** The same table with every unreadable cell replaced by [None]. *)
Definition forgive (c : cell) : cell :=
  match c with CellErr _ => CellVal PNone | CellVal v => CellVal v end.

Definition forgive_row (row : Series) : Series := forgive <$> row.

Definition forgiven (df : DataFrame) : DataFrame :=
  mkDataFrame (columns df) (forgive_row <$> rows df).

(** The value of [kw] that counts: a non-empty [str]. *)
Definition usable (kw : option string) : option string :=
  match kw with Some k => if nonempty k then Some k else None | None => None end.

(** ** Tiers *)

(** What one tier comes to: the answer of the source, extracted. *)
Definition tier_outcome (r : fallible (option DataFrame)) : fallible (list string) :=
  df ← r; _safe_extract_keywords_from_df df.

(** The three tiers of [fetch_trending_keywords], by name. *)
Definition attempts (pytrends : TrendReq) (today pn : string)
  : list (string * fallible (list string)) :=
  [("realtime_trending_searches",
      tier_outcome (tr_realtime_trending_searches pytrends pn));
   ("trending_searches",
      tier_outcome (tr_trending_searches pytrends pn));
   ("daily_search_trends",
      tier_outcome (tr_daily_search_trends pytrends pn today))].

(** The three tiers with what the extraction stage makes of each answer,
    before any deduplication. *)
Definition extractions (pytrends : TrendReq) (today pn : string)
  : list (string * fallible (list string)) :=
  [("realtime_trending_searches",
      df ← tr_realtime_trending_searches pytrends pn; extracted df);
   ("trending_searches",
      df ← tr_trending_searches pytrends pn; extracted df);
   ("daily_search_trends",
      df ← tr_daily_search_trends pytrends pn today; extracted df)].

(** The requests of the three tiers, in their fixed order. *)
Definition tier_order (today pn : string) : list call :=
  [RealtimeTrendingSearches pn; TrendingSearches pn; DailySearchTrends pn today].

(** The strategy as the design states it: go through the ordered
    attempts, stop at the first whose list is not empty and return it
    with its name; an attempt that raised or came back empty is passed
    over; when none is left return the empty list and ["none"]. *)
Fixpoint first_usable (l : list (string * fallible (list string)))
  : list string * string :=
  match l with
  | [] => ([], "none")
  | (name, Ok (k :: ks)) :: _ => (k :: ks, name)
  | _ :: rest => first_usable rest
  end.

(** How many attempts that strategy makes. *)
Fixpoint tried (l : list (string * fallible (list string))) : nat :=
  match l with
  | [] => 0
  | (_, Ok (_ :: _)) :: _ => 1
  | _ :: rest => S (tried rest)
  end.

(** The line a tier logs after its opening line. *)
Definition tier_note (name : string) (r : fallible (list string)) : diag :=
  match r with
  | Ok [] => LogEmpty name
  | Ok kws => LogSuccess name (length kws)
  | Err e => LogFailed name e
  end.

Definition tier_openings (today pn : string) : list diag :=
  [LogAttempt "realtime_trending_searches" pn;
   LogAttempt "trending_searches" pn;
   LogAttemptDated "daily_search_trends" pn today].

Definition tier_lines (today pn : string)
    (l : list (string * fallible (list string))) : list diag :=
  concat (zip_with (λ opening a, [opening; tier_note a.1 a.2])
            (tier_openings today pn) (take (tried l) l)).

Definition tier_found (name : string) (r : fallible (list string))
  : option (list string * string) :=
  match r with Ok (k :: ks) => Some (k :: ks, name) | _ => None end.

Definition yields_nothing (r : fallible (list string)) : bool :=
  match r with Ok (_ :: _) => false | _ => true end.

(** ** Regions and requests *)

Definition supported : list string := ["KR"; "US"; "MX"].

Definition pn_of (r : string) : string :=
  default "south_korea" (Trending.REGION_PN_MAP !! r).

Definition geo_of (r : string) : string :=
  default "KR" (Trending.REGION_GEO_MAP !! r).

(** The request names region [r] by the identifiers the tables give it. *)
Definition own_identifiers (r : string) (c : call) : Prop :=
  match c with
  | RealtimeTrendingSearches pn | TrendingSearches pn | DailySearchTrends pn _ =>
      Trending.REGION_PN_MAP !! r = Some pn
  | BuildPayload _ _ _ geo _ => Trending.REGION_GEO_MAP !! r = Some geo
  | NewTrendReq | RelatedQueries => True
  end.

(** The requests of the keyword-biased approximation tier. *)
Definition is_approximation (c : call) : bool :=
  match c with BuildPayload _ _ _ _ _ | RelatedQueries => true | _ => false end.

Definition permitted (a : argv) (c : call) : Prop :=
  (∃ r, arg_region a = Some r ∧ r ∈ supported ∧ own_identifiers r c)
  ∧ (arg_prefer_youtube a = false → is_approximation c = false).

(** The same command line without the opt-in flag. *)
Definition standard (a : argv) : argv :=
  mkArgv (arg_region a) (arg_days a) false (arg_extra a).

(** ** Result documents *)

(** [doc[field]] when it is a list. *)
Definition doc_list (field : string) (doc : pyval) : list pyval :=
  match doc with
  | PyDict d => match dict_get field d with Some (PyList l) => l | _ => [] end
  | _ => []
  end.

(** [item["keyword"]] *)
Definition item_keyword (item : pyval) : option pyval :=
  match item with PyDict d => dict_get "keyword" d | _ => None end.

(** [len(items) == len(keywords)] and [items[i].keyword == keywords[i]]. *)
Definition aligned (doc : pyval) : Prop :=
  length (doc_list "items" doc) = length (doc_list "keywords" doc)
  ∧ ∀ i item, doc_list "items" doc !! i = Some item →
      item_keyword item = doc_list "keywords" doc !! i.

(** The item [main] builds for a keyword of the trending feeds. *)
Definition item_of (today kw : string) : pyval :=
  PyDict [("date", Atom (PStr today)); ("keyword", Atom (PStr kw));
          ("traffic", Atom (PStr ""))].

Definition trending_document (today : string) (result : ResultDocument) : Prop :=
  ∃ r d kws, result = foldl (Trending.add_keyword today) (mkResult r d [] []) kws.

Definition rising_document (result : ResultDocument) : Prop :=
  res_keywords result = res_items result.

(** ** Reasoning about runs *)

(** [w] with more lines on standard error and more requests, and the
    same standard output. *)
Definition extend (w : world) (errs : list diag) (reqs : list call) : world :=
  mkWorld (stdout w) (stderr w ++ errs) (requests w ++ reqs).

(** [m] writes nothing to standard output, only makes requests that
    satisfy [P], never leaves with status 0, and returns only values that
    satisfy [Q]. *)
Definition hoare {A} (P : call → Prop) (m : M A) (Q : A → Prop) : Prop :=
  ∀ w, ∃ errs reqs,
    (m w).2 = extend w errs reqs ∧ Forall P reqs
    ∧ (m w).1 ≠ Exit 0 ∧ ∀ a, (m w).1 = Ret a → Q a.

(** [m] either returns after one write of a result document that
    satisfies [Q], or ends otherwise, with a status other than 0, having
    written nothing; its requests satisfy [P]. *)
Definition finishing (P : call → Prop) (Q : ResultDocument → Prop) (m : M unit)
  : Prop :=
  ∀ w, ∃ errs reqs docs,
    (m w).2 = mkWorld (stdout w ++ docs) (stderr w ++ errs) (requests w ++ reqs)
    ∧ Forall P reqs
    ∧ (((m w).1 = Ret () ∧ ∃ result, Q result ∧ docs = [to_dict result])
       ∨ ((m w).1 ≠ Ret () ∧ (m w).1 ≠ Exit 0 ∧ docs = [])).

Definition anything {A} : A → Prop := λ _, True.

(** In every world [m] ends with [o], having added [docs] to standard
    output, [errs] to standard error and [reqs] to the requests. *)
Definition traced {A} (m : M A) (o : outcome A)
    (errs : list diag) (reqs : list call) (docs : list pyval) : Prop :=
  ∀ w, m w = (o, mkWorld (stdout w ++ docs) (stderr w ++ errs) (requests w ++ reqs)).

(** * Sample inputs *)

Definition row1 (c : label) (v : scalar) : Series := {[ c := CellVal v ]}.

(** Two rows with the same title. *)
Definition concert : DataFrame :=
  mkDataFrame [LStr "title"]
    [row1 (LStr "title") (PStr "Concert A"); row1 (LStr "title") (PStr "Concert A")].

(** pandas' missing-value marker: its truth value is ambiguous. *)
Definition pd_NA : pyobject :=
  PyObject (Err (PyException "TypeError: boolean value of NA is ambiguous"))
           (Ok "<NA>") false.

(** A missing title followed by a good row. *)
Definition na_frame : DataFrame :=
  mkDataFrame [LStr "title"]
    [row1 (LStr "title") (PObj pd_NA); row1 (LStr "title") (PStr "Concert A")].

(** The same table with a first cell that raises when it is read. *)
Definition unreadable_frame : DataFrame :=
  mkDataFrame [LStr "title"]
    [{[ LStr "title" := CellErr (PyException "KeyError") ]};
     row1 (LStr "title") (PStr "Concert A")].

(** A single unnamed column, as [trending_searches] returns it. *)
Definition unnamed_column : DataFrame :=
  mkDataFrame [LInt 0]
    [row1 (LInt 0) (PStr " BTS "); row1 (LInt 0) (PStr "");
     row1 (LInt 0) (PStr "Election")].

(** The rising table of the related queries: one query and its growth. *)
Definition rising_table : DataFrame :=
  mkDataFrame [LStr "query"; LStr "value"]
    [{[ LStr "query" := CellVal (PStr "concert a"); LStr "value" := CellVal (PInt 250) ]}].

Definition too_many_requests {A} : fallible A := Err (ResponseError "429").

(** A source that refuses every request after the client is built. *)
Definition throttled : TrendReq :=
  mkTrendReq (Ok ()) (λ _, too_many_requests) (λ _, too_many_requests)
    (λ _ _, too_many_requests) (λ _ _ _ _ _, too_many_requests) too_many_requests.

(** A source whose realtime feed answers [na_frame] and whose other
    feeds are refused. *)
Definition na_source : TrendReq :=
  mkTrendReq (Ok ()) (λ _, Ok (Some na_frame)) (λ _, too_many_requests)
    (λ _ _, too_many_requests) (λ _ _ _ _ _, too_many_requests) too_many_requests.

(** A source whose realtime feed is refused and whose daily feed works. *)
Definition second_tier : TrendReq :=
  mkTrendReq (Ok ()) (λ _, too_many_requests) (λ _, Ok (Some concert))
    (λ _ _, too_many_requests) (λ _ _ _ _ _, too_many_requests) too_many_requests.

(** A source that answers the related queries with [rising_table]. *)
Definition rising_source : TrendReq :=
  mkTrendReq (Ok ()) (λ _, too_many_requests) (λ _, too_many_requests)
    (λ _ _, too_many_requests) (λ _ _ _ _ _, Ok ())
    (Ok {[ "" := {[ "rising" := Some rising_table ]} ]}).

Definition kr7 : argv := mkArgv (Some "KR") (Some "7") false [].
Definition kr7_youtube : argv := mkArgv (Some "KR") (Some "7") true [].
Definition jp7 : argv := mkArgv (Some "JP") (Some "7") false [].
Definition kr_week : argv := mkArgv (Some "KR") (Some "a week") false [].

(** * Further notions *)

(** Does the string start with a whitespace character? *)
Definition head_space (s : string) : bool :=
  match s with String a _ => is_space a | EmptyString => false end.

(** A keyword as the result documents want it: not empty, and with no
    whitespace at either end. *)
Definition clean (k : string) : Prop := nonempty k = true ∧ strip k = k.

(** The command line passes argparse and [int()]: region [r], day count
    [d]. *)
Definition valid_command (a : argv) (r : string) (d : Z) : Prop :=
  arg_extra a = [] ∧ arg_region a = Some r ∧ r ∈ supported
  ∧ py_int (default "7" (arg_days a)) = Ok d.

(** The request the approximation tier opens with. *)
Definition youtube_payload (geo : string) (days : Z) : call :=
  BuildPayload ["youtube"] 0 ("now " +:+ pretty days +:+ "-d") geo "youtube".

(** The request the rising script opens with; [days] is the text given
    on the command line. *)
Definition rising_payload (geo days : string) : call :=
  BuildPayload [""] 0 ("now " +:+ days +:+ "-d") geo "youtube".

(** The item the rising script builds for a row. *)
Definition rising_item (today : string) (keyword : scalar) (traffic : string) : pyval :=
  PyDict [("date", Atom (PStr today)); ("keyword", Atom keyword);
          ("traffic", Atom (PStr traffic))].

(** What a row of the rising table must offer for an item to be built. *)
Definition rising_row (today : string) (row : Series) (item : pyval) : Prop :=
  ∃ keyword value traffic,
    row !! LStr "query" = Some (CellVal keyword)
    ∧ row !! LStr "value" = Some (CellVal value)
    ∧ py_str value = Ok traffic
    ∧ item = rising_item today keyword traffic.

(** * Further sample inputs *)

(** A source that accepts the payload and has no related queries. *)
Definition quiet_source : TrendReq :=
  mkTrendReq (Ok ()) (λ _, too_many_requests) (λ _, too_many_requests)
    (λ _ _, too_many_requests) (λ _ _ _ _ _, Ok ()) (Ok ∅).

(** A document of the trending script for the command line [a]: region
    and day count are those of the command line, the items and keywords
    come from a list of distinct clean keywords. *)
Definition trending_result (today : string) (a : argv) (result : ResultDocument)
  : Prop :=
  valid_command a (res_region result) (res_days result)
  ∧ ∃ kws, NoDup kws ∧ Forall clean kws
           ∧ res_items result = item_of today <$> kws
           ∧ res_keywords result = (λ kw, Atom (PStr kw)) <$> kws.

(** A source whose client cannot be built. *)
Definition unreachable : TrendReq :=
  mkTrendReq too_many_requests (λ _, too_many_requests) (λ _, too_many_requests)
    (λ _ _, too_many_requests) (λ _ _ _ _ _, too_many_requests) too_many_requests.

(** A rising table for the seed, with a repeated and a blank query. *)
Definition seed_table : DataFrame :=
  mkDataFrame [LStr "query"; LStr "value"]
    [{[ LStr "query" := CellVal (PStr "youtube music"); LStr "value" := CellVal (PInt 300) ]};
     {[ LStr "query" := CellVal (PStr " "); LStr "value" := CellVal (PInt 200) ]};
     {[ LStr "query" := CellVal (PStr "youtube music "); LStr "value" := CellVal (PInt 100) ]}].

(** A source whose related queries for the seed are [seed_table]. *)
Definition youtube_source : TrendReq :=
  mkTrendReq (Ok ()) (λ _, too_many_requests) (λ _, too_many_requests)
    (λ _ _, too_many_requests) (λ _ _ _ _ _, Ok ())
    (Ok {[ "youtube" := {[ "rising" := Some seed_table ]} ]}).

(** The three requests of the rising script, in order. *)
Definition rising_order (geo days : string) : list call :=
  [NewTrendReq; rising_payload geo days; RelatedQueries].

(** A row of the rising table from which no item can be built: the
    query or the value is missing. *)
Definition lacks_column (row : Series) : Prop :=
  row !! LStr "query" = None ∨ row !! LStr "value" = None.

(** A rising table without the value column. *)
Definition valueless_table : DataFrame :=
  mkDataFrame [LStr "query"] [row1 (LStr "query") (PStr "concert a")].

(** A source that answers the related queries with [valueless_table]. *)
Definition valueless_source : TrendReq :=
  mkTrendReq (Ok ()) (λ _, too_many_requests) (λ _, too_many_requests)
    (λ _ _, too_many_requests) (λ _ _ _ _ _, Ok ())
    (Ok {[ "" := {[ "rising" := Some valueless_table ]} ]}).

(** * [src/test/tag_experiment.py]: the counts behind the scores

    [get_tag_analysis] gathers the tags of every video found
    ([video_tags_list], one list per video, empty when the video has no
    tags, and [all_tags], their concatenation), then computes for each
    distinct tag its number of occurrences and the number of videos
    that carry it.  The score itself is a floating-point product and is
    not modelled. *)
Module TagExperiment.

(** Lines 49-55: [all_tags.extend(tags)] for each video. *)
Definition all_tags (video_tags_list : list (list string)) : list string :=
  concat video_tags_list.

(** Line 58. *)
Definition total_docs (video_tags_list : list (list string)) : nat :=
  length video_tags_list.

(** Lines 59 and 63: [Counter(all_tags)[tag]]. *)
Definition tf (video_tags_list : list (list string)) (tag : string) : nat :=
  length (filter (λ t, t = tag) (all_tags video_tags_list)).

(** Line 64: [sum(1 for tags in video_tags_list if tag in tags)]. *)
Definition df_t (video_tags_list : list (list string)) (tag : string) : nat :=
  length (filter (λ tags, tag ∈ tags) video_tags_list).

(** Line 84: [keyword.replace(" ", "_")]. *)
Fixpoint safe_keyword (keyword : string) : string :=
  match keyword with
  | EmptyString => EmptyString
  | String a rest =>
      String (if Ascii.eqb a " " then "_"%char else a) (safe_keyword rest)
  end.

(** Line 85: the name of the file the table is saved under. *)
Definition file_name (date_str region keyword : string) : string :=
  date_str +:+ "_" +:+ region +:+ "_" +:+ safe_keyword keyword +:+ ".csv".

End TagExperiment.

(** Does the string contain the character? *)
Fixpoint has_char (c : ascii) (s : string) : bool :=
  match s with
  | EmptyString => false
  | String a rest => Ascii.eqb a c || has_char c rest
  end.


(** * Facts *)

(** ** The model on small inputs *)

Example Deduplicator_example : Deduplicator ["a"; "b"; "a"; "c"; "b"] = ["a"; "b"; "c"].
Proof. vm_compute. reflexivity. Qed.

Example strip_example : strip "  Concert A " = "Concert A".
Proof. vm_compute. reflexivity. Qed.

Example py_int_example :
  py_int " 7 " = Ok 7 ∧ py_int "-3" = Ok (-3) ∧ py_int "1_0" = Ok 10
  ∧ py_int "a week" = Err (PyException "ValueError: invalid literal for int()")
  ∧ py_int "" = Err (PyException "ValueError: invalid literal for int()")
  ∧ py_int "7.5" = Err (PyException "ValueError: invalid literal for int()").
Proof. vm_compute. by repeat split. Qed.

(** Where [int()] is stricter than [str.strip]: the separator 28 is not
    skipped, the no-break space 160 is, and 4301 digits are too many. *)
Example py_int_limits :
  let sevens n := String.concat "" (replicate n "7") in
  py_int (String (ascii_of_nat 28) "7")
    = Err (PyException "ValueError: invalid literal for int()")
  ∧ py_int (String (ascii_of_nat 160) "7") = Ok 7
  ∧ py_int ("7" +:+ String (ascii_of_nat 133) "") = Ok 7
  ∧ py_int "7_" = Err (PyException "ValueError: invalid literal for int()")
  ∧ py_int "007" = Ok 7
  ∧ (∃ n, py_int (sevens 4300%nat) = Ok n)
  ∧ py_int (sevens 4301%nat +:+ " x")
    = Err (PyException "ValueError: Exceeds the limit (4300 digits) for integer string conversion")
  ∧ py_int (sevens 4300%nat +:+ " x")
    = Err (PyException "ValueError: invalid literal for int()").
Proof.
  intros sevens. split_and!; try by vm_compute.
  eexists. vm_compute. reflexivity.
Qed.

(** The end-to-end scenario of the design: the realtime feed is refused,
    the daily feed has the same title twice. *)
Example end_to_end_example :
  run (Trending.main second_tier "2026-01-07" kr7)
  = (0, mkWorld
          [to_dict (mkResult "KR" 7 [item_of "2026-01-07" "Concert A"]
                             [Atom (PStr "Concert A")])]
          [LogStart "KR" "KR" "south_korea" 7 false;
           LogAttempt "realtime_trending_searches" "south_korea";
           LogFailed "realtime_trending_searches" (ResponseError "429");
           LogAttempt "trending_searches" "south_korea";
           LogSuccess "trending_searches" 1;
           LogDone "trending_searches" 1]
          [NewTrendReq; RealtimeTrendingSearches "south_korea";
           TrendingSearches "south_korea"]).
Proof. vm_compute. reflexivity. Qed.

(** ** The deduplication loop *)
Section Dedup.
Implicit Types (seen : gset string) (uniq out l : list string) (k : string).

Lemma uniq_loop_acc seen uniq out :
  uniq_loop seen uniq out = uniq ++ uniq_loop seen [] out.
Proof.
  revert seen uniq. induction out as [|k rest IH]; intros seen uniq; simpl.
  - by rewrite app_nil_r.
  - case_decide; [apply IH|].
    rewrite (IH _ (uniq ++ [k])), (IH _ [k]). by rewrite <- app_assoc.
Qed.

Lemma uniq_loop_cons seen k rest :
  uniq_loop seen [] (k :: rest) =
    if decide (k ∈ seen) then uniq_loop seen [] rest
    else k :: uniq_loop ({[k]} ∪ seen) [] rest.
Proof. simpl. case_decide; [done|]. by rewrite uniq_loop_acc. Qed.

Lemma elem_of_uniq_loop seen out k :
  k ∈ uniq_loop seen [] out ↔ k ∈ out ∧ k ∉ seen.
Proof.
  revert seen. induction out as [|k' rest IH]; intros seen.
  - simpl. set_solver.
  - rewrite uniq_loop_cons. case_decide.
    + rewrite IH. set_solver.
    + rewrite elem_of_cons, IH. destruct (decide (k = k')); set_solver.
Qed.

Lemma NoDup_uniq_loop seen out : NoDup (uniq_loop seen [] out).
Proof.
  revert seen. induction out as [|k rest IH]; intros seen.
  - constructor.
  - rewrite uniq_loop_cons. case_decide; [apply IH|].
    constructor; [|apply IH]. rewrite elem_of_uniq_loop. set_solver.
Qed.

Lemma uniq_loop_NoDup_id seen l :
  NoDup l → (∀ k, k ∈ l → k ∉ seen) → uniq_loop seen [] l = l.
Proof.
  intros Hnd. revert seen. induction Hnd as [|k rest Hk Hnd IH]; intros seen Hseen.
  - done.
  - rewrite uniq_loop_cons. rewrite decide_False by set_solver.
    f_equal. apply IH. intros k' Hk'. 
    assert (k' ≠ k) by (intros ->; done). set_solver.
Qed.

Lemma uniq_loop_first_occurrences pre out :
  uniq_loop (list_to_set pre) [] out =
    omap id (imap (λ i k, if decide (k ∈ pre ++ take i out) then None else Some k) out).
Proof.
  revert pre. induction out as [|k rest IH]; intros pre.
  - done.
  - rewrite uniq_loop_cons. simpl. rewrite app_nil_r.
    assert (Hext : imap ((λ i k0, if decide (k0 ∈ pre ++ take i (k :: rest)) then None else Some k0) ∘ S) rest
                 = imap (λ i k0, if decide (k0 ∈ (pre ++ [k]) ++ take i rest) then None else Some k0) rest).
    { apply imap_ext. intros i x _. simpl. rewrite <- app_assoc. done. }
    rewrite Hext.
    destruct (decide (k ∈ pre)) as [Hin|Hnin].
    + rewrite decide_True by set_solver. simpl.
      rewrite <- IH. f_equal. set_solver.
    + rewrite decide_False by set_solver. simpl. f_equal.
      rewrite <- IH. f_equal. set_solver.
Qed.

Lemma Deduplicator_facts :
  (∀ l, Deduplicator l = first_occurrences l)
  ∧ (∀ l, NoDup (Deduplicator l))
  ∧ (∀ l k, k ∈ Deduplicator l ↔ k ∈ l).
Proof.
  unfold Deduplicator. split_and!.
  - intros l. change (∅ : gset string) with (list_to_set [] : gset string).
    by rewrite uniq_loop_first_occurrences.
  - intros l. apply NoDup_uniq_loop.
  - intros l k. rewrite elem_of_uniq_loop. set_solver.
Qed.
End Dedup.


(** ** The extractor *)
Lemma omap_skip {A B} (f : A → option B) (l1 : list A) (x : A) (l2 : list A) :
  f x = None → omap f (l1 ++ x :: l2) = omap f (l1 ++ l2).
Proof. intros Hx. rewrite !omap_app. simpl. by rewrite Hx. Qed.

Section Extractor.
Implicit Types (row : Series) (cands : list label) (kw : option string)
  (out : list string) (rs : list Series) (df : DataFrame).

Lemma scan_candidates_plain row cands kw :
  plain_row row → usable kw = None →
  ∃ kw', scan_candidates row cands kw = Ok kw' ∧ usable kw' = row_keyword cands row.
Proof.
  intros Hrow. revert kw. induction cands as [|c rest IH]; intros kw Hkw; simpl.
  - eauto.
  - unfold row_get. destruct (row !! c) as [[v|e]|] eqn:Hc; simpl.
    + apply Hrow in Hc. simpl in Hc. unfold well_behaved in Hc.
      destruct (py_bool v) as [[]|]; simpl; try done.
      * destruct (py_str v) as [s|]; simpl; try done.
        destruct (nonempty (strip s)) eqn:Hs; [|by apply IH; simpl; rewrite Hs].
        eexists; split; [done|]. simpl. by rewrite Hs.
      * by apply IH.
    + by apply IH.
    + by apply IH.
Qed.

Lemma rows_loop_plain cands rs out :
  Forall plain_row rs →
  rows_loop cands rs out = Ok (out ++ omap (row_keyword cands) rs).
Proof.
  intros Hrs. revert out. induction Hrs as [|row rs Hrow Hrs IH]; intros out; simpl.
  - by rewrite app_nil_r.
  - destruct (scan_candidates_plain row cands None Hrow eq_refl) as (kw & -> & Hkw).
    simpl. rewrite IH. rewrite <- Hkw.
    destruct kw as [k|]; simpl; [|done].
    destruct (nonempty k); [|done]. by rewrite <- app_assoc.
Qed.

Lemma row_get_forgive row c :
  match row_get (forgive_row row) c with Ok v => v | Err _ => PNone end
  = match row_get row c with Ok v => v | Err _ => PNone end.
Proof. unfold row_get, forgive_row. rewrite lookup_fmap. by destruct (row !! c) as [[]|]. Qed.

Lemma scan_candidates_forgive row cands kw :
  scan_candidates (forgive_row row) cands kw = scan_candidates row cands kw.
Proof.
  revert kw. induction cands as [|c rest IH]; intros kw; simpl; [done|].
  rewrite row_get_forgive.
  destruct (py_bool _) as [[]|]; simpl; try done.
  destruct (py_str _) as [s|]; simpl; try done.
  destruct (nonempty (strip s)); done.
Qed.

Lemma rows_loop_forgive cands rs out :
  rows_loop cands (forgive_row <$> rs) out = rows_loop cands rs out.
Proof.
  revert out. induction rs as [|row rs IH]; intros out; simpl; [done|].
  rewrite scan_candidates_forgive.
  destruct (scan_candidates row cands None); simpl; [|done]. apply IH.
Qed.

Lemma df_empty_forgiven df : df_empty (forgiven df) = df_empty df.
Proof. destruct df as [[|c cols] [|r rs]]; done. Qed.

Lemma extract_plain df :
  plain_frame df → df_empty df = false →
  _safe_extract_keywords_from_df (Some df)
  = Ok (Deduplicator (omap (row_keyword (candidate_cols (columns df))) (rows df))).
Proof.
  intros Hdf Hne. unfold _safe_extract_keywords_from_df. rewrite Hne.
  by rewrite rows_loop_plain.
Qed.
End Extractor.

(** ** Rules for runs *)
Lemma bind_run {A B} (m : M A) (k : A → M B) w :
  (m ≫= k) w = match m w with
               | (Ret a, w') => k a w'
               | (Raise e, w') => (Raise e, w')
               | (Exit c, w') => (Exit c, w')
               end.
Proof. reflexivity. Qed.

Section Hoare.
Context {A B : Type}.
Implicit Types (P : call → Prop) (w : world).

Lemma extend_nil w : extend w [] [] = w.
Proof. destruct w. unfold extend. simpl. by rewrite !app_nil_r. Qed.

Lemma extend_extend w e1 r1 e2 r2 :
  extend (extend w e1 r1) e2 r2 = extend w (e1 ++ e2) (r1 ++ r2).
Proof. unfold extend. simpl. by rewrite !app_assoc. Qed.

Lemma hoare_ret P (a : A) (Q : A → Prop) : Q a → hoare P (mret a) Q.
Proof.
  intros HQ w. exists [], []. rewrite extend_nil. split_and!; [done..|].
  intros a' [= <-]. done.
Qed.

Lemma hoare_lift P (r : fallible A) (Q : A → Prop) :
  (∀ a, r = Ok a → Q a) → hoare P (lift r) Q.
Proof.
  intros HQ w. exists [], []. rewrite extend_nil. unfold lift.
  destruct r; simpl; split_and!; try done. intros a' [= <-]. by apply HQ.
Qed.

Lemma hoare_sys_exit P c (Q : A → Prop) : c ≠ 0 → hoare P (sys_exit c) Q.
Proof.
  intros Hc w. exists [], []. rewrite extend_nil. split_and!; try done.
  simpl. congruence.
Qed.

Lemma hoare_bind P (m : M A) (k : A → M B) (Q : A → Prop) (R : B → Prop) :
  hoare P m Q → (∀ a, Q a → hoare P (k a) R) → hoare P (m ≫= k) R.
Proof.
  intros Hm Hk w. destruct (Hm w) as (e1 & r1 & Hw & HP & Hx & HQ).
  rewrite bind_run. destruct (m w) as [[a|e|c] w1]; simpl in *; subst w1.
  - destruct (Hk a (HQ a eq_refl) (extend w e1 r1)) as (e2 & r2 & Hw2 & HP2 & Hx2 & HR).
    exists (e1 ++ e2), (r1 ++ r2). rewrite Hw2, extend_extend.
    split_and!; [done|by apply Forall_app|done..].
  - exists e1, r1. by split_and!.
  - exists e1, r1. split_and!; try done. congruence.
Qed.

Lemma hoare_try P (body : M A) (handler : exn → M A) (Q : A → Prop) :
  hoare P body Q → (∀ e, hoare P (handler e) Q) → hoare P (try_except body handler) Q.
Proof.
  intros Hm Hh w. destruct (Hm w) as (e1 & r1 & Hw & HP & Hx & HQ).
  unfold try_except. destruct (body w) as [[a|e|c] w1]; simpl in *; subst w1.
  - exists e1, r1. by split_and!.
  - destruct (Hh e (extend w e1 r1)) as (e2 & r2 & Hw2 & HP2 & Hx2 & HR).
    exists (e1 ++ e2), (r1 ++ r2). rewrite Hw2, extend_extend.
    split_and!; [done|by apply Forall_app|done..].
  - exists e1, r1. by split_and!.
Qed.

Lemma hoare_bind_any P (m : M A) (k : A → M B) (R : B → Prop) :
  hoare P m anything → (∀ a, hoare P (k a) R) → hoare P (m ≫= k) R.
Proof. intros Hm Hk. eapply hoare_bind; [exact Hm|]. intros a _. apply Hk. Qed.
End Hoare.

Lemma hoare_log P d (Q : unit → Prop) : Q () → hoare P (log d) Q.
Proof.
  intros HQ w. exists [d], []. unfold log, extend. simpl. rewrite app_nil_r.
  split_and!; [done..|]. by intros [].
Qed.

Lemma hoare_request P c (Q : unit → Prop) : P c → Q () → hoare P (request c) Q.
Proof.
  intros HP HQ w. exists [], [c]. unfold request, extend. simpl. rewrite app_nil_r.
  split_and!; [done|by constructor|done|]. by intros [].
Qed.

Lemma hoare_parser_error {A} P (Q : A → Prop) : hoare P parser_error Q.
Proof.
  unfold parser_error. eapply hoare_bind_any; [by apply hoare_log|].
  intros _. by apply hoare_sys_exit.
Qed.

Ltac hoare_step :=
  first
    [ apply hoare_ret
    | apply hoare_log
    | apply hoare_lift; intros ? ?
    | apply hoare_sys_exit
    | apply hoare_parser_error
    | apply hoare_request
    | apply hoare_try; [|intros ?]
    | apply hoare_bind_any; [|intros ?]
    | match goal with
      | |- hoare _ (match ?x with _ => _ end) _ => destruct x
      end ].

Section Finishing.
Implicit Types (P : call → Prop) (Q : ResultDocument → Prop).

Lemma finishing_bind {A} P Q (m : M A) (k : A → M unit) (Q0 : A → Prop) :
  hoare P m Q0 → (∀ a, Q0 a → finishing P Q (k a)) → finishing P Q (m ≫= k).
Proof.
  intros Hm Hk w. destruct (Hm w) as (e1 & r1 & Hw & HP & Hx & HQ).
  rewrite bind_run. destruct (m w) as [[a|e|c] w1]; simpl in *; subst w1.
  - destruct (Hk a (HQ a eq_refl) (extend w e1 r1)) as (e2 & r2 & docs & Hw2 & HP2 & Hend).
    exists (e1 ++ e2), (r1 ++ r2), docs. rewrite Hw2. unfold extend. simpl.
    rewrite !app_assoc. split_and!; [done|by apply Forall_app|done].
  - exists e1, r1, []. rewrite app_nil_r. split_and!; [done..|]. by right.
  - exists e1, r1, []. rewrite app_nil_r. split_and!; [done..|]. right.
    split_and!; [done| |done]. congruence.
Qed.

Lemma finishing_print P Q result :
  Q result →
  finishing P Q (text ← lift (json_dumps (to_dict result)); print text).
Proof.
  intros HQ w. rewrite bind_run. unfold json_dumps, lift, print.
  destruct (serialisable (to_dict result)); simpl.
  - exists [], [], [to_dict result]. rewrite !app_nil_r. split_and!; [done..|].
    left. eauto.
  - exists [], [], []. rewrite !app_nil_r. destruct w. split_and!; [done..|]. by right.
Qed.

Lemma finishing_weaken P P' Q Q' m :
  finishing P Q m → (∀ c, P c → P' c) → (∀ r, Q r → Q' r) → finishing P' Q' m.
Proof.
  intros Hm HP HQ w. destruct (Hm w) as (e & r & docs & Hw & HPr & Hend).
  exists e, r, docs. split_and!; [done|by eapply Forall_impl|].
  destruct Hend as [[? (res & ? & ?)]|?]; [left|right]; eauto.
Qed.
End Finishing.

(** ** The tiers *)
Section TrendingFacts.
Variable pytrends : TrendReq.
Variable today : string.

Lemma tier_run name opening c (r : fallible (option DataFrame)) w :
  Trending.tier name opening (request c ;; lift r) w
  = (Ret (tier_found name (tier_outcome r)),
     extend w [opening; tier_note name (tier_outcome r)] [c]).
Proof.
  unfold Trending.tier, try_except, tier_outcome, extend, mbind, M_bind, log, request, lift.
  simpl. destruct r as [df|e]; simpl.
  - destruct (_safe_extract_keywords_from_df df) as [[|k ks]|e]; simpl;
      by rewrite <- app_assoc.
  - by rewrite <- app_assoc.
Qed.

Ltac tier_step :=
  unfold mbind at 1, M_bind at 1;
  match goal with
  | |- context [Trending.tier ?n ?o (mbind (λ _, lift ?r) (request ?c)) ?w] =>
      rewrite (tier_run n o c r w)
  end.

Lemma fetch_trending_keywords_run pn w :
  let l := attempts pytrends today pn in
  Trending.fetch_trending_keywords pytrends today pn w
  = (Ret (first_usable l),
     extend w (tier_lines today pn l) (take (tried l) (tier_order today pn))).
Proof.
  unfold Trending.fetch_trending_keywords, attempts, tier_order, tier_lines, tier_openings.
  unfold realtime_trending_searches, trending_searches, daily_search_trends.
  tier_step.
  destruct (tier_outcome (tr_realtime_trending_searches pytrends pn)) as [[|k1 ks1]|e1];
    unfold tier_found; cbv iota beta; [|reflexivity|].
  all: tier_step;
    destruct (tier_outcome (tr_trending_searches pytrends pn)) as [[|k2 ks2]|e2];
    unfold tier_found; cbv iota beta; rewrite ?extend_extend; try reflexivity.
  all: tier_step;
    destruct (tier_outcome (tr_daily_search_trends pytrends pn today)) as [[|k3 ks3]|e3];
    unfold tier_found; cbv iota beta; rewrite ?extend_extend; reflexivity.
Qed.

Lemma first_usable_nothing pn :
  Forall (λ t, yields_nothing t.2 = true) (attempts pytrends today pn) →
  first_usable (attempts pytrends today pn) = ([], "none").
Proof.
  unfold attempts. intros H.
  repeat match goal with H : Forall _ (_ :: _) |- _ => apply Forall_cons_1 in H; destruct H as [? H] end.
  simpl in *.
  destruct (tier_outcome (tr_realtime_trending_searches pytrends pn)) as [[|k1 ks1]|e1]; try done;
  destruct (tier_outcome (tr_trending_searches pytrends pn)) as [[|k2 ks2]|e2]; try done;
  destruct (tier_outcome (tr_daily_search_trends pytrends pn today)) as [[|k3 ks3]|e3]; done.
Qed.


Lemma tier_lines_failed pn i name e :
  let l := attempts pytrends today pn in
  (i < tried l)%nat → l !! i = Some (name, Err e) →
  LogFailed name e ∈ tier_lines today pn l.
Proof.
  unfold attempts, tier_lines, tier_openings.
  destruct (tier_outcome (tr_realtime_trending_searches pytrends pn)) as [[|k1 ks1]|e1];
  destruct (tier_outcome (tr_trending_searches pytrends pn)) as [[|k2 ks2]|e2];
  destruct (tier_outcome (tr_daily_search_trends pytrends pn today)) as [[|k3 ks3]|e3];
  simpl; intros Hi Hl; destruct i as [|[|[|i]]]; simpl in *; simplify_eq; try lia;
  set_solver.
Qed.
End TrendingFacts.

(** ** Requests of the components *)
Section Components.
Variable pytrends : TrendReq.
Variable today : string.
Implicit Types (P : call → Prop).

Lemma hoare_new_TrendReq P : P NewTrendReq → hoare P (new_TrendReq pytrends) anything.
Proof. intros. unfold new_TrendReq. repeat hoare_step; done. Qed.

Lemma hoare_build_payload P kw cat tf geo gprop :
  P (BuildPayload kw cat tf geo gprop) →
  hoare P (build_payload pytrends kw cat tf geo gprop) anything.
Proof. intros. unfold build_payload. repeat hoare_step; done. Qed.

Lemma hoare_related_queries P :
  P RelatedQueries → hoare P (related_queries pytrends) anything.
Proof. intros. unfold related_queries. repeat hoare_step; done. Qed.

Lemma hoare_fetch_trending_keywords P pn :
  Forall P (tier_order today pn) →
  hoare P (Trending.fetch_trending_keywords pytrends today pn) anything.
Proof.
  intros HP w. rewrite fetch_trending_keywords_run. cbv zeta.
  eexists _, _. split; [reflexivity|]. split; [|done].
  by apply Forall_take.
Qed.

Lemma hoare_fetch_youtube P geo days :
  P (BuildPayload ["youtube"] 0 ("now " +:+ pretty days +:+ "-d") geo "youtube") →
  P RelatedQueries →
  hoare P (Trending.fetch_youtube_like_keywords_experimental pytrends geo days) anything.
Proof.
  intros HB HR. unfold Trending.fetch_youtube_like_keywords_experimental.
  apply hoare_bind_any; [by apply hoare_log|intros _].
  apply hoare_bind_any; [by apply hoare_build_payload|intros _].
  apply hoare_bind_any; [by apply hoare_related_queries|intros rq].
  destruct (rising_of "youtube" rq) as [df|]; [|by apply hoare_ret].
  destruct (df_empty df); [by apply hoare_ret|].
  repeat hoare_step; done.
Qed.
End Components.

(** ** The two programs *)
Lemma trending_parse_args_ok a r :
  arg_extra a = [] → arg_region a = Some r → r ∈ supported →
  Trending.parse_args a
  = mret (mkNamespace r (default "7" (arg_days a)) (arg_prefer_youtube a)).
Proof.
  intros Hx Hr Hin. unfold Trending.parse_args. rewrite Hx, Hr.
  by rewrite decide_True.
Qed.

Lemma supported_pn r : r ∈ supported → Trending.REGION_PN_MAP !! r = Some (pn_of r).
Proof.
  unfold supported, pn_of. rewrite !elem_of_cons, elem_of_nil.
  intros [->|[->|[->|[]]]]; by vm_compute.
Qed.

Lemma supported_geo r : r ∈ supported → Trending.REGION_GEO_MAP !! r = Some (geo_of r).
Proof.
  unfold supported, geo_of. rewrite !elem_of_cons, elem_of_nil.
  intros [->|[->|[->|[]]]]; by vm_compute.
Qed.

Lemma rising_geo_map : Rising.REGION_GEO_MAP = Trending.REGION_GEO_MAP.
Proof. reflexivity. Qed.

Section Mains.
Variable pytrends : TrendReq.
Variable today : string.

Lemma hoare_trending_parse_args P a :
  hoare P (Trending.parse_args a)
    (λ args, arg_region a = Some (region args) ∧ region args ∈ supported
             ∧ prefer_youtube args = arg_prefer_youtube a).
Proof.
  unfold Trending.parse_args.
  destruct (arg_extra a); [|apply hoare_parser_error].
  destruct (arg_region a) as [r|]; [|apply hoare_parser_error].
  case_decide; [|apply hoare_parser_error].
  by apply hoare_ret.
Qed.

Lemma trending_main_finishing a :
  finishing (permitted a) (trending_document today) (Trending.main pytrends today a).
Proof.
  unfold Trending.main.
  eapply finishing_bind; [apply hoare_trending_parse_args|].
  intros [r ds flag] (Hr & Hin & Hflag). simpl in *.
  eapply finishing_bind; [apply (hoare_lift _ _ anything); done|]. intros d _.
  eapply finishing_bind; [by apply (hoare_log _ _ anything)|]. intros _ _.
  assert (Hown : ∀ c, own_identifiers r c → (flag = false → is_approximation c = false) →
                      permitted a c).
  { intros c Hc Hf. split; [by eauto|]. intros Ha. apply Hf. congruence. }
  eapply finishing_bind; [|intros result HQ; apply finishing_print, HQ].
  apply hoare_try; [|intros e; repeat hoare_step; done].
  apply hoare_bind_any; [apply hoare_new_TrendReq; by apply Hown|intros _].
  eapply (hoare_bind _ _ _ anything).
  { destruct flag; [|by apply hoare_ret].
    apply hoare_try.
    - apply hoare_bind_any; [|intros ?; by apply hoare_ret].
      apply hoare_fetch_youtube; apply Hown; simpl; try done.
      by apply supported_geo.
    - intros [msg|msg]; repeat hoare_step; done. }
  intros [keywords source] _.
  eapply (hoare_bind _ _ _ anything).
  { destruct keywords; [|by apply hoare_ret].
    apply hoare_fetch_trending_keywords. unfold tier_order.
    repeat constructor; apply Hown; simpl; try done; by apply supported_pn. }
  intros [keywords' source'] _.
  apply hoare_bind_any; [by apply hoare_log|intros _].
  apply hoare_ret. by exists r, d, keywords'.
Qed.

Lemma hoare_rising_parse_args P a :
  hoare P (Rising.parse_args a)
    (λ args, arg_region a = Some (region args) ∧ region args ∈ supported
             ∧ arg_prefer_youtube a = false).
Proof.
  unfold Rising.parse_args.
  destruct (arg_extra a); [|apply hoare_parser_error].
  destruct (arg_prefer_youtube a); [apply hoare_parser_error|].
  destruct (arg_region a) as [r|]; [|apply hoare_parser_error].
  case_decide; [|apply hoare_parser_error].
  by apply hoare_ret.
Qed.

Lemma rising_rows_loop_document rs result result' :
  Rising.rows_loop today rs result = Ok result' →
  rising_document result → rising_document result'.
Proof.
  revert result. induction rs as [|row rs IH]; intros result; simpl.
  - by intros [= <-].
  - destruct (row_getitem row (LStr "query")) as [keyword|]; simpl; [|done].
    destruct (row_getitem row (LStr "value")) as [value|]; simpl; [|done].
    destruct (py_str value) as [traffic|]; simpl; [|done].
    intros Hloop Hdoc. apply (IH _ Hloop).
    unfold rising_document in *. simpl. by rewrite Hdoc.
Qed.

Lemma rising_main_finishing a :
  finishing (λ c, ∃ r, arg_region a = Some r ∧ r ∈ supported ∧ own_identifiers r c)
    rising_document (Rising.main pytrends today a).
Proof.
  unfold Rising.main.
  eapply finishing_bind; [apply hoare_rising_parse_args|].
  intros [r ds flag] (Hr & Hin & Hflag). simpl in *.
  eapply finishing_bind; [apply (hoare_lift _ _ anything); done|]. intros d _.
  eapply finishing_bind; [by apply (hoare_log _ _ anything)|]. intros _ _.
  eapply finishing_bind; [|intros result HQ; apply finishing_print, HQ].
  apply hoare_try; [|intros e; repeat hoare_step; done].
  apply hoare_bind_any; [apply hoare_new_TrendReq; by exists r|intros _].
  apply hoare_bind_any.
  { apply hoare_build_payload. exists r. split_and!; [done..|].
    simpl. rewrite rising_geo_map. by apply supported_geo. }
  intros _.
  apply hoare_bind_any; [apply hoare_related_queries; by exists r|intros rq].
  destruct (rising_of "" rq) as [df|].
  - destruct (df_empty df).
    + apply hoare_bind_any; [by apply hoare_log|intros _]. by apply hoare_ret.
    + apply hoare_bind_any; [by apply hoare_log|intros _].
      apply hoare_lift. intros result' Hloop.
      by apply (rising_rows_loop_document _ _ _ Hloop).
  - apply hoare_bind_any; [by apply hoare_log|intros _]. by apply hoare_ret.
Qed.
End Mains.

(** ** Result documents *)
Section Documents.
Variable today : string.

Lemma foldl_add_keyword result kws :
  foldl (Trending.add_keyword today) result kws
  = mkResult (res_region result) (res_days result)
      (res_items result ++ (item_of today <$> kws))
      (res_keywords result ++ ((λ kw, Atom (PStr kw)) <$> kws)).
Proof.
  revert result. induction kws as [|kw kws IH]; intros result; simpl.
  - rewrite !app_nil_r. by destruct result.
  - rewrite IH. simpl. by rewrite <- !app_assoc.
Qed.

Lemma serialisable_to_dict result :
  serialisable (to_dict result)
  = forallb serialisable (res_items result) && forallb serialisable (res_keywords result).
Proof. simpl. by rewrite andb_true_r. Qed.

Lemma trending_document_aligned result :
  trending_document today result → aligned (to_dict result).
Proof.
  intros (r & d & kws & ->). rewrite foldl_add_keyword. unfold aligned. simpl.
  split; [by rewrite !length_fmap|].
  intros i item. rewrite !list_lookup_fmap.
  destruct (kws !! i) as [kw|]; simpl; [|done]. by intros [= <-].
Qed.

Lemma trending_document_serialisable result :
  trending_document today result → serialisable (to_dict result) = true.
Proof.
  intros (r & d & kws & ->). rewrite foldl_add_keyword, serialisable_to_dict.
  simpl. apply andb_true_iff. split.
  - induction kws as [|kw kws IH]; [done|]. rewrite fmap_cons. simpl. apply IH.
  - induction kws as [|kw kws IH]; [done|]. rewrite fmap_cons. simpl. apply IH.
Qed.
End Documents.

(** ** Runs *)
Lemma run_finishing P Q (m : M unit) :
  finishing P Q m →
  Forall P (contacted m)
  ∧ ((exit_code m = 0 ∧ ∃ result, Q result ∧ written m = [to_dict result])
     ∨ (exit_code m ≠ 0 ∧ written m = [])).
Proof.
  intros Hm. destruct (Hm fresh) as (errs & reqs & docs & Hw & HP & Hend).
  unfold contacted, exit_code, written, run.
  destruct (m fresh) as [[[]|e|c] w]; simpl in *; subst w; simpl.
  - split; [done|]. destruct Hend as [[_ (result & HQ & ->)]|[? _]]; [|done].
    left. eauto.
  - split; [done|]. destruct Hend as [[? _]|(_ & _ & ->)]; [done|]. by right.
  - split; [done|]. destruct Hend as [[? _]|(_ & Hc & ->)]; [done|]. right.
    split; [congruence|done].
Qed.

Lemma program_finishing v pytrends today a :
  finishing (λ c, ∃ r, arg_region a = Some r ∧ r ∈ supported ∧ own_identifiers r c)
    anything (program v pytrends today a).
Proof.
  destruct v; simpl.
  - eapply finishing_weaken; [apply trending_main_finishing| |done].
    by intros c [? _].
  - eapply finishing_weaken; [apply rising_main_finishing|done..].
Qed.

(** * The stated properties *)

(** ** Deduplicator *)

(** C8.  The deduplication loop returns the entries of its input that do
    not occur earlier in it, in input order (each value stays at the place
    of its first occurrence); the result has no duplicates and the same
    members as the input; applying the loop twice is the same as applying
    it once; and on a, b, a, c, b it returns a, b, c. *)
Theorem Deduplicator_first_occurrence_idempotent :
  (∀ l, Deduplicator l = first_occurrences l)
  ∧ (∀ l, NoDup (Deduplicator l))
  ∧ (∀ l k, k ∈ Deduplicator l ↔ k ∈ l)
  ∧ (∀ l, Deduplicator (Deduplicator l) = Deduplicator l)
  ∧ Deduplicator ["a"; "b"; "a"; "c"; "b"] = ["a"; "b"; "c"].
Proof.
  destruct Deduplicator_facts as (Hfirst & Hnd & Hin).
  split_and!; [exact Hfirst|exact Hnd|exact Hin| |].
  - intros l. unfold Deduplicator.
    apply uniq_loop_NoDup_id; [apply NoDup_uniq_loop | set_solver].
  - vm_compute. reflexivity.
Qed.

(** ** Defensive row extractor *)

Lemma scan_candidates_returns row cands kw kw' :
  scan_candidates row cands kw = Ok kw' → usable kw = None →
  usable kw' = row_keyword cands row.
Proof.
  revert kw. induction cands as [|c rest IH]; intros kw Hscan Hkw; simpl in *.
  - by simplify_eq.
  - unfold row_get in Hscan. destruct (row !! c) as [[v|e]|]; simpl in *.
    + destruct (py_bool v) as [[]|]; simpl in *; [| |done].
      * destruct (py_str v) as [s|]; simpl in *; [|done].
        destruct (nonempty (strip s)) eqn:Hs.
        -- simplify_eq. simpl. by rewrite Hs.
        -- apply (IH _ Hscan). simpl. by rewrite Hs.
      * destruct (py_str v); by apply (IH _ Hscan).
    + by apply (IH _ Hscan).
    + by apply (IH _ Hscan).
Qed.

Lemma rows_loop_returns cands rs acc out :
  rows_loop cands rs acc = Ok out → out = acc ++ omap (row_keyword cands) rs.
Proof.
  revert acc. induction rs as [|row rs IH]; intros acc Hloop; simpl in Hloop.
  - simplify_eq. by rewrite app_nil_r.
  - destruct (scan_candidates row cands None) as [kw|] eqn:Hscan; [|done].
    simpl in Hloop. apply IH in Hloop as ->.
    apply scan_candidates_returns in Hscan; [|done].
    cbn [omap list_omap]. rewrite <- Hscan.
    destruct kw as [k|]; simpl; [|done].
    destruct (nonempty k); [|done]. by rewrite <- app_assoc.
Qed.

Lemma omap_no_candidates rs : omap (row_keyword []) rs = [].
Proof. induction rs as [|row rs IH]; [done|]. simpl. exact IH. Qed.

Lemma extracted_rows df out :
  extracted (Some df) = Ok out →
  out = omap (row_keyword (candidate_cols (columns df))) (rows df).
Proof.
  unfold extracted, row_keywords. destruct (df_empty df) eqn:Hempty.
  - intros [= <-]. destruct df as [[|c cols] [|r rs]]; try done.
    symmetry. apply omap_no_candidates.
  - intros Hloop. by apply rows_loop_returns in Hloop.
Qed.

Lemma occurrences_omap {A} (f : A → option string) k (l : list A) :
  occurrences k (omap f l) = length (filter (λ a, f a = Some k) l).
Proof.
  unfold occurrences. induction l as [|a l IH]; [done|].
  cbn [omap list_omap]. rewrite (filter_cons (λ a, f a = Some k)).
  destruct (f a) as [k'|] eqn:Ha.
  - rewrite filter_cons. destruct (decide (k' = k)) as [->|Hk].
    + rewrite decide_True by done. simpl. by rewrite IH.
    + rewrite decide_False by congruence. exact IH.
  - rewrite decide_False by done. exact IH.
Qed.

Lemma extract_extracted df :
  _safe_extract_keywords_from_df df = (out ← extracted df; Ok (Deduplicator out)).
Proof.
  unfold _safe_extract_keywords_from_df, extracted, row_keywords.
  destruct df as [df|]; [|done]. by destruct (df_empty df).
Qed.

Lemma first_usable_deduplicated (l : list (string * fallible (list string))) :
  first_usable ((λ a, (a.1, out ← a.2; Ok (Deduplicator out))) <$> l)
  = (Deduplicator (first_usable l).1, (first_usable l).2).
Proof.
  induction l as [|[name [[|k ks]|e]] l IH]; [done| | |]; cbn [fmap list_fmap fst snd].
  - exact IH.
  - change (out ← Ok (k :: ks); Ok (Deduplicator out))
      with (Ok (Deduplicator (k :: ks)) : fallible (list string)).
    cbn [first_usable fst snd]. unfold Deduplicator. rewrite uniq_loop_cons.
    rewrite decide_False by set_solver. reflexivity.
  - exact IH.
Qed.

Lemma attempts_extractions pytrends today pn :
  attempts pytrends today pn
  = (λ a, (a.1, out ← a.2; Ok (Deduplicator out))) <$> extractions pytrends today pn.
Proof.
  unfold attempts, extractions, tier_outcome. cbn [fmap list_fmap fst snd].
  repeat f_equal.
  - destruct (tr_realtime_trending_searches pytrends pn); [apply extract_extracted|done].
  - destruct (tr_trending_searches pytrends pn); [apply extract_extracted|done].
  - destruct (tr_daily_search_trends pytrends pn today); [apply extract_extracted|done].
Qed.

(** C2.  The extraction stage (the loop over the rows, lines 64-91)
    hands on the keywords of the rows in row order and drops none of
    them as a repetition: whenever it returns, its list is the keyword
    of each row that has one, row after row, so a keyword occurs in it
    as many times as there are rows with that keyword; and it returns on
    every table whose values can be truth-tested and turned into text.
    Duplicates are removed only afterwards, by the deduplication loop
    (lines 93-100), which receives that whole list; for the pipeline
    this is the same as deduplicating once what the tiered strategy
    selects among the lists as extracted. *)
Theorem extractor_keeps_rows_in_order :
  (∀ df out, extracted (Some df) = Ok out →
     out = omap (row_keyword (candidate_cols (columns df))) (rows df)
     ∧ ∀ k, occurrences k out
            = length (filter (λ row, row_keyword (candidate_cols (columns df)) row = Some k)
                             (rows df)))
  ∧ (∀ df, plain_frame df → ∃ out, extracted (Some df) = Ok out)
  ∧ (∀ df, _safe_extract_keywords_from_df df
           = (out ← extracted df; Ok (Deduplicator out)))
  ∧ (∀ pytrends today pn w,
       (Trending.fetch_trending_keywords pytrends today pn w).1
       = Ret (Deduplicator (first_usable (extractions pytrends today pn)).1,
              (first_usable (extractions pytrends today pn)).2)).
Proof.
  split_and!.
  - intros df out Hout. apply extracted_rows in Hout as ->.
    split; [done|]. intros k. apply occurrences_omap.
  - intros df Hplain. unfold extracted, row_keywords.
    destruct (df_empty df); [by eexists|].
    eexists. by apply rows_loop_plain.
  - apply extract_extracted.
  - intros pytrends today pn w. rewrite fetch_trending_keywords_run. cbv zeta.
    cbn [fst]. by rewrite attempts_extractions, first_usable_deduplicated.
Qed.

(** The scenario of the design document: the title is in both rows, the
    extraction stage yields it twice, the deduplication loop once. *)
Lemma extractor_keeps_rows_in_order_witness :
  extracted (Some concert) = Ok ["Concert A"; "Concert A"]
  ∧ ["Concert A"; "Concert A"]
    = omap (row_keyword (candidate_cols (columns concert))) (rows concert)
  ∧ occurrences "Concert A" ["Concert A"; "Concert A"] = 2%nat
  ∧ _safe_extract_keywords_from_df (Some concert) = Ok ["Concert A"].
Proof.
  destruct extractor_keeps_rows_in_order as (Hrows & Hplain & Hdedup & _).
  assert (Hout : extracted (Some concert) = Ok ["Concert A"; "Concert A"]).
  { destruct (Hplain concert) as [out Hout].
    - unfold plain_frame, concert, row1. simpl.
      repeat constructor; by apply map_Forall_singleton.
    - rewrite Hout. f_equal. destruct (Hrows _ _ Hout) as [-> _]. reflexivity. }
  destruct (Hrows _ _ Hout) as [Heq _].
  split_and!; [exact Hout|exact Heq|reflexivity|].
  rewrite Hdedup, Hout. reflexivity.
Defined.

(** C6.  The extractor does raise, and a malformed row does abort the
    rows after it.  The first row holds pandas' NA where the title
    should be: the truth test [if v:] raises, outside the [try] that
    guards [row.get(c)], and the extractor raises with it, although the
    second row on its own yields its title, and although the same table
    with a first cell that cannot be read at all (the case the [try]
    does catch) yields it too.  In the pipeline the title is lost: the
    tier is recorded as failed and, the other feeds being refused, the
    document is empty. *)
Theorem extractor_raises_on_NA :
  let NA_is_ambiguous := PyException "TypeError: boolean value of NA is ambiguous" in
  _safe_extract_keywords_from_df (Some na_frame) = Err NA_is_ambiguous
  ∧ _safe_extract_keywords_from_df (Some (mkDataFrame (columns na_frame) (drop 1 (rows na_frame))))
    = Ok ["Concert A"]
  ∧ _safe_extract_keywords_from_df (Some unreadable_frame) = Ok ["Concert A"]
  ∧ written (Trending.main na_source "2026-01-07" kr7) = [to_dict (mkResult "KR" 7 [] [])]
  ∧ LogFailed "realtime_trending_searches" NA_is_ambiguous
      ∈ narrated (Trending.main na_source "2026-01-07" kr7).
Proof.
  intros NA_is_ambiguous. split_and!; try by vm_compute.
  vm_compute. set_solver.
Qed.

(** What the extractor does tolerate.  An absent or empty table gives
    the empty list.  A cell that cannot be read counts as [None].  On
    every table whose values can be truth-tested and, when truthy,
    turned into text, the extractor does not raise: it returns the
    deduplicated keywords of the rows that have one, so a row without a
    usable value is passed over and the rows after it are still
    extracted. *)
Theorem extractor_is_defensive :
  _safe_extract_keywords_from_df None = Ok []
  ∧ (∀ df, df_empty df = true → _safe_extract_keywords_from_df (Some df) = Ok [])
  ∧ (∀ df, _safe_extract_keywords_from_df (Some (forgiven df))
           = _safe_extract_keywords_from_df (Some df))
  ∧ (∀ df, plain_frame df → df_empty df = false →
       _safe_extract_keywords_from_df (Some df)
       = Ok (Deduplicator (omap (row_keyword (candidate_cols (columns df))) (rows df))))
  ∧ (∀ cols before bad after,
       Forall plain_row (before ++ bad :: after) →
       row_keyword (candidate_cols cols) bad = None →
       _safe_extract_keywords_from_df (Some (mkDataFrame cols (before ++ bad :: after)))
       = _safe_extract_keywords_from_df (Some (mkDataFrame cols (before ++ after)))).
Proof.
  split_and!.
  - done.
  - intros df Hdf. unfold _safe_extract_keywords_from_df. by rewrite Hdf.
  - intros df. unfold _safe_extract_keywords_from_df.
    rewrite df_empty_forgiven. destruct (df_empty df); [done|].
    simpl. by rewrite rows_loop_forgive.
  - apply extract_plain.
  - intros cols before bad after Hplain Hbad.
    assert (Hplain' : Forall plain_row (before ++ after)).
    { apply Forall_app in Hplain as [? Hrest]. apply Forall_cons_1 in Hrest as [_ ?].
      by apply Forall_app. }
    destruct cols as [|c0 cols].
    { destruct before; done. }
    destruct (before ++ after) as [|r rs] eqn:Hrows.
    + apply app_eq_nil in Hrows as [-> ->].
      rewrite extract_plain; [|done..]. cbn [columns rows].
      by rewrite (omap_skip _ [] bad []).
    + rewrite <- Hrows. rewrite !extract_plain.
      * cbn [columns rows]. by rewrite omap_skip.
      * unfold plain_frame. cbn [rows]. by rewrite Hrows.
      * by rewrite Hrows.
      * done.
      * by destruct before.
Qed.

Lemma extractor_is_defensive_witness :
  _safe_extract_keywords_from_df (Some unnamed_column)
  = Ok (Deduplicator (omap (row_keyword (candidate_cols (columns unnamed_column)))
                           (rows unnamed_column)))
  ∧ _safe_extract_keywords_from_df (Some unnamed_column) = Ok ["BTS"; "Election"].
Proof.
  split; [|by vm_compute].
  destruct extractor_is_defensive as (_ & _ & _ & Hplain & _).
  apply Hplain; [|reflexivity].
  unfold plain_frame, unnamed_column, row1. simpl.
  repeat constructor; by apply map_Forall_singleton.
Defined.

(** ** Positional fallback *)

Lemma strip_nonempty s : nonempty (strip s) = true → nonempty s = true.
Proof. by destruct s. Qed.

Lemma candidate_cols_fallback c0 cols :
  Forall (λ c, c ∉ c0 :: cols) preferred_cols → candidate_cols (c0 :: cols) = [c0].
Proof.
  intros Hpref. unfold candidate_cols.
  replace (filter (λ c, c ∈ c0 :: cols) preferred_cols) with (@nil label); [done|].
  symmetry. induction Hpref as [|c l Hc Hl IH]; [done|].
  rewrite filter_cons, decide_False by done. apply IH.
Qed.

Lemma rows_loop_cons cands row rest out :
  rows_loop cands (row :: rest) out
  = kw ← scan_candidates row cands None;
    rows_loop cands rest (match usable kw with Some k => out ++ [k] | None => out end).
Proof.
  simpl. destruct (scan_candidates row cands None) as [[k|]|]; simpl; try done.
  by destruct (nonempty k).
Qed.

Lemma scan_first_column row c0 s :
  row !! c0 = Some (CellVal (PStr s)) →
  scan_candidates row [c0] None = Ok (if nonempty s then Some (strip s) else None).
Proof.
  intros Hrow. simpl. unfold row_get. rewrite Hrow. simpl.
  destruct (nonempty s); simpl; [|done]. by destruct (nonempty (strip s)).
Qed.

Lemma rows_loop_first_column c0 rs ss out :
  Forall2 (λ row s, row !! c0 = Some (CellVal (PStr s))) rs ss →
  rows_loop [c0] rs out
  = Ok (out ++ filter (λ k, nonempty k = true) (strip <$> ss)).
Proof.
  intros Hrs. revert out. induction Hrs as [|row s rs ss Hrow Hrs IH]; intros out.
  - simpl. by rewrite app_nil_r.
  - rewrite rows_loop_cons, (scan_first_column row c0 s Hrow), fmap_cons, filter_cons.
    change (mbind ?f (Ok ?x)) with (f x). cbv beta.
    destruct (nonempty (strip s)) eqn:Hk.
    + rewrite (strip_nonempty _ Hk). cbn [usable]. rewrite Hk.
      rewrite decide_True by done. rewrite IH. by rewrite <- app_assoc.
    + rewrite decide_False by congruence.
      destruct (nonempty s); cbn [usable]; rewrite ?Hk; apply IH.
Qed.

(** C9.  When none of the names query, title and keyword is a column of
    the table, the only candidate is the first column; if that column
    holds strings, the extractor returns them trimmed, without the rows
    whose string is empty after trimming, each kept at its first
    occurrence.  So every string of the first column that is not blank
    is recovered. *)
Theorem first_column_fallback c0 cols r rs ss :
  Forall (λ c, c ∉ c0 :: cols) preferred_cols →
  Forall2 (λ row s, row !! c0 = Some (CellVal (PStr s))) (r :: rs) ss →
  candidate_cols (c0 :: cols) = [c0]
  ∧ _safe_extract_keywords_from_df (Some (mkDataFrame (c0 :: cols) (r :: rs)))
    = Ok (Deduplicator (filter (λ k, nonempty k = true) (strip <$> ss)))
  ∧ ∀ s, s ∈ ss → nonempty (strip s) = true →
      strip s ∈ Deduplicator (filter (λ k, nonempty k = true) (strip <$> ss)).
Proof.
  intros Hpref Hrows. pose proof (candidate_cols_fallback _ _ Hpref) as Hcands.
  split_and!; [done| |].
  - unfold _safe_extract_keywords_from_df. cbn [df_empty columns rows].
    rewrite Hcands, (rows_loop_first_column c0 (r :: rs) ss []) by done.
    done.
  - intros s Hs Hk. destruct Deduplicator_facts as (_ & _ & Hin).
    apply Hin. apply list_elem_of_filter. split; [done|].
    apply list_elem_of_fmap. eauto.
Qed.

Lemma first_column_fallback_witness :
  candidate_cols [LInt 0] = [LInt 0]
  ∧ _safe_extract_keywords_from_df (Some unnamed_column)
    = Ok (Deduplicator (filter (λ k, nonempty k = true)
                               (strip <$> [" BTS "; ""; "Election"])))
  ∧ ∀ s, s ∈ [" BTS "; ""; "Election"] → nonempty (strip s) = true →
      strip s ∈ Deduplicator (filter (λ k, nonempty k = true)
                                     (strip <$> [" BTS "; ""; "Election"])).
Proof.
  apply (first_column_fallback (LInt 0) []
           (row1 (LInt 0) (PStr " BTS "))
           [row1 (LInt 0) (PStr ""); row1 (LInt 0) (PStr "Election")]).
  - repeat constructor; set_solver.
  - repeat constructor; apply lookup_singleton_eq.
Defined.

(** ** Tiered fetch strategy *)

(** C3.  [fetch_trending_keywords] always returns, and returns what the
    design's strategy returns on the three tiers in the order realtime
    feed, daily feed, dated lookup: the list of the first tier whose
    extraction is not empty, with that tier's name.  It makes the
    requests of the tiers in that order and none after the tier it
    stopped at, writes nothing to standard output, and logs every tier
    that raised, with its name and the exception, before going on.  In
    particular, when the realtime tier raises and the daily tier yields
    a non-empty list, it returns that list as trending_searches after
    exactly those two requests. *)
Theorem tiers_first_usable pytrends today pn w :
  let l := attempts pytrends today pn in
  let result := Trending.fetch_trending_keywords pytrends today pn w in
  (result.1 = Ret (first_usable l)
   ∧ requests result.2 = requests w ++ take (tried l) (tier_order today pn)
   ∧ stdout result.2 = stdout w
   ∧ ∀ i name e, (i < tried l)%nat → l !! i = Some (name, Err e) →
       LogFailed name e ∈ stderr result.2)
  ∧ ∀ e k ks,
      tier_outcome (tr_realtime_trending_searches pytrends pn) = Err e →
      tier_outcome (tr_trending_searches pytrends pn) = Ok (k :: ks) →
      result.1 = Ret (k :: ks, "trending_searches")
      ∧ requests result.2 = requests w ++ [RealtimeTrendingSearches pn; TrendingSearches pn]
      ∧ LogFailed "realtime_trending_searches" e ∈ stderr result.2.
Proof.
  intros l result. subst result. rewrite fetch_trending_keywords_run.
  fold l. cbn [fst snd extend stdout stderr requests].
  assert (Hlog : ∀ i name e, (i < tried l)%nat → l !! i = Some (name, Err e) →
                  LogFailed name e ∈ stderr w ++ tier_lines today pn l).
  { intros i name e Hi Hl. apply elem_of_app. right.
    by apply (tier_lines_failed pytrends today pn i). }
  split; [by split_and!|].
  intros e k ks H1 H2.
  assert (Hfirst : first_usable l = (k :: ks, "trending_searches")).
  { unfold l, attempts. rewrite H1, H2. done. }
  assert (Htried : tried l = 2%nat).
  { unfold l, attempts. rewrite H1, H2. done. }
  rewrite Hfirst, Htried. split_and!; [done..|].
  apply (Hlog 0%nat); [lia|]. unfold l, attempts. by rewrite H1.
Qed.

Lemma tiers_first_usable_witness :
  let result := Trending.fetch_trending_keywords second_tier "2026-01-07" "south_korea" fresh in
  result.1 = Ret (["Concert A"], "trending_searches")
  ∧ requests result.2
    = requests fresh ++ [RealtimeTrendingSearches "south_korea"; TrendingSearches "south_korea"]
  ∧ LogFailed "realtime_trending_searches" (ResponseError "429") ∈ stderr result.2.
Proof.
  destruct (tiers_first_usable second_tier "2026-01-07" "south_korea" fresh) as [_ H].
  apply (H (ResponseError "429") "Concert A" []); vm_compute; reflexivity.
Defined.

(** C4.  When the command line is valid, the opt-in flag is absent, the
    client can be built and every tier raises or extracts nothing, the
    strategy returns the empty list with the name none, and the program
    exits with status 0 after writing one document whose items and
    keywords are empty. *)
Theorem all_tiers_exhausted pytrends today a r d :
  arg_extra a = [] → arg_region a = Some r → r ∈ supported →
  py_int (default "7" (arg_days a)) = Ok d →
  arg_prefer_youtube a = false →
  tr_init pytrends = Ok () →
  Forall (λ t, yields_nothing t.2 = true) (attempts pytrends today (pn_of r)) →
  (∀ w, (Trending.fetch_trending_keywords pytrends today (pn_of r) w).1 = Ret ([], "none"))
  ∧ exit_code (Trending.main pytrends today a) = 0
  ∧ written (Trending.main pytrends today a) = [to_dict (mkResult r d [] [])].
Proof.
  intros Hx Hr Hin Hd Hflag Hinit Hnone.
  pose proof (first_usable_nothing _ _ _ Hnone) as Hfirst.
  split.
  { intros w. rewrite fetch_trending_keywords_run. cbv zeta. cbn [fst]. by rewrite Hfirst. }
  unfold exit_code, written, run, Trending.main.
  rewrite (trending_parse_args_ok a r) by done.
  rewrite bind_run. simpl. rewrite Hd, Hflag. rewrite bind_run. simpl.
  rewrite bind_run. simpl.
  unfold try_except, new_TrendReq. rewrite Hinit.
  repeat (rewrite bind_run; simpl).
  fold (pn_of r). rewrite fetch_trending_keywords_run. cbv zeta. rewrite Hfirst. simpl.
  done.
Qed.

Lemma all_tiers_exhausted_witness :
  (∀ w, (Trending.fetch_trending_keywords throttled "2026-01-07" (pn_of "KR") w).1
        = Ret ([], "none"))
  ∧ exit_code (Trending.main throttled "2026-01-07" kr7) = 0
  ∧ written (Trending.main throttled "2026-01-07" kr7) = [to_dict (mkResult "KR" 7 [] [])].
Proof.
  apply (all_tiers_exhausted throttled "2026-01-07" kr7 "KR" 7);
    try reflexivity; repeat constructor.
Defined.

(** ** Runs with a known outcome *)

Section Traced.
Context {A B : Type}.
Implicit Types (errs : list diag) (reqs : list call) (docs : list pyval).

Lemma traced_ret (a : A) : traced (mret a) (Ret a) [] [] [].
Proof. intros [???]. unfold mret, M_ret. simpl. by rewrite !app_nil_r. Qed.

Lemma traced_lift_ok (a : A) : traced (lift (Ok a)) (Ret a) [] [] [].
Proof. intros [???]. simpl. by rewrite !app_nil_r. Qed.

Lemma traced_lift_err (e : exn) : traced (lift (@Err A e)) (Raise e) [] [] [].
Proof. intros [???]. simpl. by rewrite !app_nil_r. Qed.

Lemma traced_bind (m : M A) (k : A → M B) a o e1 r1 d1 e2 r2 d2 :
  traced m (Ret a) e1 r1 d1 → traced (k a) o e2 r2 d2 →
  traced (m ≫= k) o (e1 ++ e2) (r1 ++ r2) (d1 ++ d2).
Proof.
  intros Hm Hk w. rewrite bind_run, Hm, Hk. simpl. by rewrite !app_assoc.
Qed.

Lemma traced_bind_raise (m : M A) (k : A → M B) e e1 r1 d1 :
  traced m (Raise e) e1 r1 d1 → traced (m ≫= k) (Raise e) e1 r1 d1.
Proof. intros Hm w. by rewrite bind_run, Hm. Qed.

Lemma traced_try_ret (body : M A) handler a e1 r1 d1 :
  traced body (Ret a) e1 r1 d1 → traced (try_except body handler) (Ret a) e1 r1 d1.
Proof. intros Hm w. unfold try_except. by rewrite Hm. Qed.

Lemma traced_try_raise (body : M A) handler e o e1 r1 d1 e2 r2 d2 :
  traced body (Raise e) e1 r1 d1 → traced (handler e) o e2 r2 d2 →
  traced (try_except body handler) o (e1 ++ e2) (r1 ++ r2) (d1 ++ d2).
Proof.
  intros Hm Hh w. unfold try_except. rewrite Hm, Hh. simpl. by rewrite !app_assoc.
Qed.
End Traced.

Lemma traced_sys_exit {A} c : traced (@sys_exit A c) (Exit c) [] [] [].
Proof. intros [???]. unfold sys_exit. simpl. by rewrite !app_nil_r. Qed.

Lemma traced_bind_exit {A B} (m : M A) (k : A → M B) c e1 r1 d1 :
  traced m (Exit c) e1 r1 d1 → traced (m ≫= k) (Exit c) e1 r1 d1.
Proof. intros Hm w. by rewrite bind_run, Hm. Qed.

Lemma traced_try_exit {A} (body : M A) handler c e1 r1 d1 :
  traced body (Exit c) e1 r1 d1 → traced (try_except body handler) (Exit c) e1 r1 d1.
Proof. intros Hm w. unfold try_except. by rewrite Hm. Qed.

Lemma traced_log d : traced (log d) (Ret ()) [d] [] [].
Proof. intros [???]. unfold log. simpl. by rewrite !app_nil_r. Qed.

Lemma traced_request c : traced (request c) (Ret ()) [] [c] [].
Proof. intros [???]. unfold request. simpl. by rewrite !app_nil_r. Qed.

Lemma traced_print doc : traced (print doc) (Ret ()) [] [] [doc].
Proof. intros [???]. unfold print. simpl. by rewrite !app_nil_r. Qed.

Lemma traced_bind_eq {A B} (m : M A) (k : A → M B) a o e1 r1 d1 e2 r2 d2 e r d :
  traced m (Ret a) e1 r1 d1 → traced (k a) o e2 r2 d2 →
  e = e1 ++ e2 → r = r1 ++ r2 → d = d1 ++ d2 →
  traced (m ≫= k) o e r d.
Proof. intros Hm Hk -> -> ->. by eapply traced_bind. Qed.

Lemma traced_try_raise_eq {A} (body : M A) handler x o e1 r1 d1 e2 r2 d2 e r d :
  traced body (Raise x) e1 r1 d1 → traced (handler x) o e2 r2 d2 →
  e = e1 ++ e2 → r = r1 ++ r2 → d = d1 ++ d2 →
  traced (try_except body handler) o e r d.
Proof. intros Hm Hk -> -> ->. by eapply traced_try_raise. Qed.

(** Runs a computation whose branches are all decided by equations in
    the context. *)
Ltac use_equations :=
  repeat match goal with
         | H : ?x = _ |- context [?x] => rewrite H
         end.

Ltac traced_go :=
  repeat (progress (cbv beta match zeta; cbn [region days prefer_youtube];
                    use_equations));
  lazymatch goal with
  | |- traced (mret _) _ _ _ _ => apply traced_ret
  | |- traced (log _) _ _ _ _ => apply traced_log
  | |- traced (request _) _ _ _ _ => apply traced_request
  | |- traced (print _) _ _ _ _ => apply traced_print
  | |- traced (sys_exit _) _ _ _ _ => apply traced_sys_exit
  | |- traced (lift (Ok _)) _ _ _ _ => apply traced_lift_ok
  | |- traced (lift (Err _)) _ _ _ _ => apply traced_lift_err
  | |- traced (_ ≫= _) _ _ _ _ =>
      first [ eapply traced_bind_eq; [traced_go | traced_go | reflexivity..]
            | eapply traced_bind_raise; traced_go
            | eapply traced_bind_exit; traced_go ]
  | |- traced (try_except _ _) _ _ _ _ =>
      first [ eapply traced_try_ret; traced_go
            | eapply traced_try_raise_eq; [traced_go | traced_go | reflexivity..]
            | eapply traced_try_exit; traced_go ]
  | |- traced (match ?x with _ => _ end) _ _ _ _ => fail "undecided" x
  | |- _ => solve [eauto]
  end.

Section Fallthrough.
Variable pytrends : TrendReq.
Variable today : string.

Lemma traced_fetch_trending_keywords pn :
  let l := attempts pytrends today pn in
  traced (Trending.fetch_trending_keywords pytrends today pn)
    (Ret (first_usable l)) (tier_lines today pn l)
    (take (tried l) (tier_order today pn)) [].
Proof.
  intros l w. rewrite fetch_trending_keywords_run. fold l. unfold extend.
  by rewrite app_nil_r.
Qed.

(** The approximation tier ends the same way in every world, and only
    makes its own requests. *)
Lemma traced_fetch_youtube geo d :
  ∃ o errs reqs,
    traced (Trending.fetch_youtube_like_keywords_experimental pytrends geo d)
      o errs reqs []
    ∧ Forall (λ c, is_approximation c = true) reqs.
Proof.
  unfold Trending.fetch_youtube_like_keywords_experimental, build_payload, related_queries.
  destruct (tr_build_payload pytrends ["youtube"] 0
              ("now " +:+ pretty d +:+ "-d") geo "youtube") as [[]|e] eqn:Hb.
  2:{ eexists _, _, _. split; [traced_go|]. by repeat constructor. }
  destruct (tr_related_queries pytrends) as [rq|e] eqn:Hq.
  2:{ eexists _, _, _. split; [traced_go|]. by repeat constructor. }
  destruct (rising_of "youtube" rq) as [df|] eqn:Hr.
  2:{ eexists _, _, _. split; [traced_go|]. by repeat constructor. }
  destruct (df_empty df) eqn:He.
  { eexists _, _, _. split; [traced_go|]. by repeat constructor. }
  destruct (Trending.rising_rows_loop (rows df) []) as [kws|e] eqn:Hl.
  - eexists _, _, _. split; [traced_go|]. by repeat constructor.
  - eexists _, _, _. split; [traced_go|]. by repeat constructor.
Qed.

(** What [main] does on a valid command line once the client is built,
    provided the approximation tier, if asked for, comes to nothing. *)
Lemma trending_main_traced a r d :
  arg_extra a = [] → arg_region a = Some r → r ∈ supported →
  py_int (default "7" (arg_days a)) = Ok d →
  tr_init pytrends = Ok () →
  (arg_prefer_youtube a = true →
     ∀ w, let o := (Trending.fetch_youtube_like_keywords_experimental
                      pytrends (geo_of r) d w).1 in
          o = Ret [] ∨ ∃ e, o = Raise e) →
  let l := attempts pytrends today (pn_of r) in
  ∃ errs reqs,
    traced (Trending.main pytrends today a) (Ret ()) errs
      (NewTrendReq :: reqs ++ take (tried l) (tier_order today (pn_of r)))
      [to_dict (foldl (Trending.add_keyword today) (mkResult r d [] [])
                  (first_usable l).1)]
    ∧ Forall (λ c, is_approximation c = true) reqs
    ∧ (arg_prefer_youtube a = false → reqs = []).
Proof.
  intros Hx Hr Hin Hd Hinit Hfail l.
  pose proof (traced_fetch_trending_keywords (pn_of r)) as Hft.
  cbv zeta in Hft. fold l in Hft.
  destruct (first_usable l) as [kws src] eqn:Hfirst. cbn [fst].
  assert (Hdoc : serialisable (to_dict (foldl (Trending.add_keyword today)
                                          (mkResult r d [] []) kws)) = true).
  { apply (trending_document_serialisable today). by eexists _, _, _. }
  assert (Hgoal : ∀ reqs,
    (∃ errs reqs' docs,
       traced (Trending.main pytrends today a) (Ret ()) errs reqs' docs
       ∧ reqs' = NewTrendReq :: reqs ++ take (tried l) (tier_order today (pn_of r))
       ∧ docs = [to_dict (foldl (Trending.add_keyword today) (mkResult r d [] []) kws)]) →
    Forall (λ c, is_approximation c = true) reqs →
    (arg_prefer_youtube a = false → reqs = []) →
    ∃ errs reqs,
      traced (Trending.main pytrends today a) (Ret ()) errs
        (NewTrendReq :: reqs ++ take (tried l) (tier_order today (pn_of r)))
        [to_dict (foldl (Trending.add_keyword today) (mkResult r d [] []) kws)]
      ∧ Forall (λ c, is_approximation c = true) reqs
      ∧ (arg_prefer_youtube a = false → reqs = [])).
  { intros reqs (errs & ? & ? & Hrun & -> & ->) ? ?. by exists errs, reqs. }
  pose proof (trending_parse_args_ok a r Hx Hr Hin) as Hparse.
  destruct (arg_prefer_youtube a) eqn:Hflag.
  - destruct (traced_fetch_youtube (geo_of r) d) as (o & e1 & r1 & Hyt & HP).
    destruct (Hfail eq_refl fresh) as [Ho|[e Ho]];
      rewrite (Hyt fresh) in Ho; cbn [fst] in Ho; subst o.
    + apply (Hgoal r1); [|done..].
      eexists _, _, _. split; [unfold Trending.main, new_TrendReq, json_dumps; traced_go|].
      split; simpl; rewrite ?app_nil_r; reflexivity.
    + apply (Hgoal r1); [|done..].
      destruct e; (eexists _, _, _; split; [unfold Trending.main, new_TrendReq, json_dumps; traced_go|]);
        split; simpl; rewrite ?app_nil_r; reflexivity.
  - apply (Hgoal []); [|done..].
    eexists _, _, _. split; [unfold Trending.main, new_TrendReq, json_dumps; traced_go|].
    split; simpl; rewrite ?app_nil_r; reflexivity.
Qed.
End Fallthrough.

Lemma run_traced (m : M unit) o errs reqs docs :
  traced m o errs reqs docs →
  exit_code m = match o with Ret _ => 0 | Raise _ => 1 | Exit c => c end
  ∧ written m = docs ∧ contacted m = reqs.
Proof.
  intros Hm. unfold exit_code, written, contacted, run. rewrite (Hm fresh).
  by destruct o.
Qed.

(** ** Opt-in approximation tier *)

(** C7.  Without the opt-in flag the program makes no request of the
    approximation tier.  With the flag, on a valid command line and a
    client that can be built, when the approximation tier raises or
    returns no keyword, the program still exits with status 0: it goes on
    to the standard tiers, starting with the realtime feed, and writes
    the document it writes on the same command line without the flag,
    built from what the tiered strategy returns. *)
Theorem approximation_is_opt_in_and_falls_through pytrends today a :
  (arg_prefer_youtube a = false →
     ∀ c, c ∈ contacted (Trending.main pytrends today a) → is_approximation c = false)
  ∧ ∀ r d,
      arg_extra a = [] → arg_region a = Some r → r ∈ supported →
      py_int (default "7" (arg_days a)) = Ok d →
      arg_prefer_youtube a = true →
      tr_init pytrends = Ok () →
      (∀ w, let o := (Trending.fetch_youtube_like_keywords_experimental
                        pytrends (geo_of r) d w).1 in
            o = Ret [] ∨ ∃ e, o = Raise e) →
      exit_code (Trending.main pytrends today a) = 0
      ∧ RealtimeTrendingSearches (pn_of r) ∈ contacted (Trending.main pytrends today a)
      ∧ written (Trending.main pytrends today a)
        = [to_dict (foldl (Trending.add_keyword today) (mkResult r d [] [])
                      (first_usable (attempts pytrends today (pn_of r))).1)]
      ∧ written (Trending.main pytrends today a)
        = written (Trending.main pytrends today (standard a)).
Proof.
  split.
  - intros Hflag c Hc.
    destruct (run_finishing _ _ _ (trending_main_finishing pytrends today a)) as [HP _].
    rewrite Forall_forall in HP. destruct (HP c Hc) as [_ Happrox]. by apply Happrox.
  - intros r d Hx Hr Hin Hd Hflag Hinit Hfail.
    destruct (trending_main_traced pytrends today a r d) as (e1 & r1 & Hrun & _); try done.
    destruct (trending_main_traced pytrends today (standard a) r d)
      as (e2 & r2 & Hstd & _); try done.
    apply run_traced in Hrun as (Hcode & Hout & Hreq).
    apply run_traced in Hstd as (_ & Hout' & _).
    rewrite Hcode, Hout, Hout', Hreq. split_and!; try done.
    apply elem_of_cons. right. apply elem_of_app. right.
    unfold attempts, tier_order.
    destruct (tier_outcome (tr_realtime_trending_searches pytrends (pn_of r))) as [[|??]|?];
      by constructor.
Qed.

Lemma approximation_is_opt_in_and_falls_through_witness :
  exit_code (Trending.main second_tier "2026-01-07" kr7_youtube) = 0
  ∧ RealtimeTrendingSearches (pn_of "KR")
      ∈ contacted (Trending.main second_tier "2026-01-07" kr7_youtube)
  ∧ written (Trending.main second_tier "2026-01-07" kr7_youtube)
    = [to_dict (foldl (Trending.add_keyword "2026-01-07") (mkResult "KR" 7 [] [])
                  (first_usable (attempts second_tier "2026-01-07" (pn_of "KR"))).1)]
  ∧ written (Trending.main second_tier "2026-01-07" kr7_youtube)
    = written (Trending.main second_tier "2026-01-07" (standard kr7_youtube)).
Proof.
  destruct (approximation_is_opt_in_and_falls_through second_tier "2026-01-07" kr7_youtube)
    as [_ H].
  apply (H "KR" 7); try reflexivity.
  - repeat constructor.
  - intros w. right. by exists (ResponseError "429").
Defined.

(** ** Usage errors *)

(** C5.  For each of the two programs: when the region given is not one
    of KR, US and MX (or none is given), or when the day count is not an
    integer literal, the program exits with a status other than 0
    without any request to the client, not even its construction, and
    without output.  In every run, each request that is made names a
    supported region given on the command line by that region's own
    identifiers: no other region's identifiers are ever substituted. *)
Theorem usage_errors_precede_requests v pytrends today a :
  ((∀ r, arg_region a = Some r → r ∉ supported)
   ∨ (∃ e, py_int (default "7" (arg_days a)) = Err e) →
     exit_code (program v pytrends today a) ≠ 0
     ∧ contacted (program v pytrends today a) = []
     ∧ written (program v pytrends today a) = [])
  ∧ ∀ c, c ∈ contacted (program v pytrends today a) →
      ∃ r, arg_region a = Some r ∧ r ∈ supported ∧ own_identifiers r c.
Proof.
  split.
  - intros Hbad.
    assert (Hrun : ∃ o errs, traced (program v pytrends today a) o errs [] []
                             ∧ (o = Exit 2 ∨ ∃ e, o = Raise e)).
    { destruct a as [reg ds flag extra]. simpl in Hbad.
      destruct v; unfold program, Trending.main, Rising.main,
        Trending.parse_args, Rising.parse_args, parser_error; cbn [arg_extra arg_region arg_prefer_youtube arg_days].
      all: destruct extra; [|eexists _, _; split; [traced_go|by left]].
      all: try (destruct flag; [eexists _, _; split; [traced_go|by left]|]).
      all: destruct reg as [r|]; [|eexists _, _; split; [traced_go|by left]].
      all: case_decide; [|eexists _, _; split; [traced_go|by left]].
      all: destruct Hbad as [Hreg|[e He]]; [by destruct (Hreg r eq_refl)|].
      all: eexists _, _; split; [traced_go|right; by exists e]. }
    destruct Hrun as (o & errs & Hrun & Ho). apply run_traced in Hrun as (-> & -> & ->).
    split_and!; try done. by destruct Ho as [->|[e ->]].
  - intros c Hc.
    destruct (run_finishing _ _ _ (program_finishing v pytrends today a)) as [HP _].
    rewrite Forall_forall in HP. by apply HP.
Qed.

Lemma usage_errors_precede_requests_witness :
  exit_code (program TrendingScript throttled "2026-01-07" jp7) ≠ 0
  ∧ contacted (program TrendingScript throttled "2026-01-07" jp7) = []
  ∧ written (program TrendingScript throttled "2026-01-07" jp7) = [].
Proof.
  destruct (usage_errors_precede_requests TrendingScript throttled "2026-01-07" jp7)
    as [H _].
  apply H. left. intros r [= <-]. unfold supported. set_solver.
Defined.

(** ** Failure and the success channel *)

(** C10.  For each of the two programs, a run that exits with a status
    other than 0 has written nothing to standard output.  Every run
    either writes nothing, or exits with status 0 after writing exactly
    one document. *)
Theorem failure_leaves_stdout_empty v pytrends today a :
  (exit_code (program v pytrends today a) ≠ 0 →
     written (program v pytrends today a) = [])
  ∧ (written (program v pytrends today a) = []
     ∨ (exit_code (program v pytrends today a) = 0
        ∧ ∃ result, written (program v pytrends today a) = [to_dict result])).
Proof.
  destruct (run_finishing _ _ _ (program_finishing v pytrends today a))
    as [_ [[Hcode (result & _ & Hout)]|[Hcode Hout]]].
  - split; [done|]. right. eauto.
  - split; [done|]. by left.
Qed.

Lemma failure_leaves_stdout_empty_witness :
  written (program RisingScript throttled "2026-01-07" kr7) = [].
Proof.
  destruct (failure_leaves_stdout_empty RisingScript throttled "2026-01-07" kr7) as [H _].
  apply H. by vm_compute.
Defined.

(** ** Items and keywords *)

(** Every document the trending program writes has as many keywords as
    items, and the keyword of each item is the keyword at the same
    index. *)
Lemma trending_documents_aligned pytrends today a :
  Forall aligned (written (Trending.main pytrends today a)).
Proof.
  destruct (run_finishing _ _ _ (trending_main_finishing pytrends today a))
    as [_ [[_ (result & Hdoc & ->)]|[_ ->]]]; [|done].
  apply Forall_cons; split; [|constructor]. by apply (trending_document_aligned today).
Qed.

(** Every document the rising program writes has, under [keywords], the
    very list it has under [items]. *)
Lemma rising_documents_repeat_items pytrends today a :
  Forall (λ doc, doc_list "keywords" doc = doc_list "items" doc)
    (written (Rising.main pytrends today a)).
Proof.
  destruct (run_finishing _ _ _ (rising_main_finishing pytrends today a))
    as [_ [[_ (result & Hdoc & ->)]|[_ ->]]]; [|done].
  apply Forall_cons; split; [|constructor]. exact Hdoc.
Qed.

(** C1, on the rising program.  On one rising query the program exits
    with status 0 and writes a document whose [keywords] entry is the
    whole item, not the item's keyword: the lengths agree, the entries
    do not. *)
Theorem rising_keywords_hold_items :
  let p := Rising.main rising_source "2026-01-07" kr7 in
  let item := PyDict [("date", Atom (PStr "2026-01-07"));
                      ("keyword", Atom (PStr "concert a"));
                      ("traffic", Atom (PStr "250"))] in
  exit_code p = 0
  ∧ written p = [to_dict (mkResult "KR" 7 [item] [item])]
  ∧ item_keyword item = Some (Atom (PStr "concert a"))
  ∧ doc_list "keywords" (to_dict (mkResult "KR" 7 [item] [item])) !! 0%nat = Some item
  ∧ ¬ aligned (to_dict (mkResult "KR" 7 [item] [item])).
Proof.
  intros p item. split_and!; try by vm_compute.
  intros [_ H]. specialize (H 0%nat item eq_refl). vm_compute in H. discriminate H.
Qed.

(** * Further properties *)

(** ** Trimming *)

Lemma append_empty_r (s : string) : (s +:+ "")%string = s.
Proof.
  induction s as [|a s IH]; [done|].
  change (String a (s +:+ "") = String a s). by rewrite IH.
Qed.

Lemma rev_app_rev_app (s1 s2 s3 : string) :
  String.rev_app (String.rev_app s1 s2) s3 = String.rev_app s2 (s1 +:+ s3)%string.
Proof.
  revert s2. induction s1 as [|a s1 IH]; intros s2; [done|].
  change (String.rev_app (String.rev_app s1 (String a s2)) s3
          = String.rev_app s2 (String a (s1 +:+ s3))).
  by rewrite IH.
Qed.

Lemma rev_involutive (s : string) : String.rev (String.rev s) = s.
Proof. unfold String.rev. rewrite rev_app_rev_app. exact (append_empty_r s). Qed.

Lemma head_space_lstrip (s : string) : head_space (lstrip s) = false.
Proof.
  induction s as [|a s IH]; simpl; [done|].
  destruct (is_space a) eqn:Ha; [done|]. simpl. by rewrite Ha.
Qed.

Lemma lstrip_id (s : string) : head_space s = false → lstrip s = s.
Proof. destruct s as [|a s]; simpl; [done|]. by intros ->. Qed.

Lemma head_space_rev_app (s acc acc' : string) :
  s ≠ EmptyString →
  head_space (String.rev_app s acc) = head_space (String.rev_app s acc').
Proof.
  revert acc acc'. induction s as [|a s IH]; intros acc acc' Hs; [done|].
  simpl. destruct s as [|b s]; [done|]. by apply IH.
Qed.

Lemma head_space_rev_lstrip (s : string) :
  head_space (String.rev s) = false → head_space (String.rev (lstrip s)) = false.
Proof.
  induction s as [|a s IH]; [done|]. simpl.
  destruct (is_space a) eqn:Ha; [|done].
  intros Hrev. apply IH. destruct s as [|b s].
  - unfold String.rev in Hrev. simpl in Hrev. congruence.
  - unfold String.rev in *. simpl in Hrev.
    by rewrite (head_space_rev_app (String b s) _ (String a "")).
Qed.

Lemma strip_ends (s : string) :
  head_space (strip s) = false ∧ head_space (String.rev (strip s)) = false.
Proof.
  unfold strip, rstrip. split.
  - apply head_space_rev_lstrip. rewrite rev_involutive. apply head_space_lstrip.
  - rewrite rev_involutive. apply head_space_lstrip.
Qed.

Lemma strip_id (s : string) :
  head_space s = false → head_space (String.rev s) = false → strip s = s.
Proof.
  intros Hhead Hlast. unfold strip, rstrip.
  rewrite (lstrip_id s Hhead), (lstrip_id _ Hlast). apply rev_involutive.
Qed.

Lemma strip_idempotent (s : string) : strip (strip s) = strip s.
Proof. destruct (strip_ends s). by apply strip_id. Qed.

(** ** More on the deduplication loop *)

Lemma uniq_loop_union (s1 s2 : gset string) (l : list string) :
  uniq_loop (s1 ∪ s2) [] l = filter (λ k, k ∉ s1) (uniq_loop s2 [] l).
Proof.
  revert s2. induction l as [|k rest IH]; intros s2; [done|].
  rewrite !uniq_loop_cons.
  destruct (decide (k ∈ s2)) as [Hk2|Hk2].
  - rewrite decide_True by set_solver. apply IH.
  - destruct (decide (k ∈ s1)) as [Hk1|Hk1].
    + rewrite decide_True by set_solver. rewrite filter_cons_False by set_solver.
      rewrite <- IH. f_equal. set_solver.
    + rewrite decide_False by set_solver. rewrite filter_cons_True by done.
      f_equal. rewrite <- IH. f_equal. set_solver.
Qed.

Lemma uniq_loop_app (seen : gset string) (l1 l2 : list string) :
  uniq_loop seen [] (l1 ++ l2)
  = uniq_loop seen [] l1 ++ uniq_loop (list_to_set l1 ∪ seen) [] l2.
Proof.
  revert seen. induction l1 as [|k l1 IH]; intros seen.
  - simpl. f_equal. set_solver.
  - rewrite <- app_comm_cons, !uniq_loop_cons. case_decide.
    + rewrite IH. do 2 f_equal. set_solver.
    + rewrite IH. rewrite <- app_comm_cons. do 3 f_equal. set_solver.
Qed.

(** X1.  Deduplicating a concatenation: the first list deduplicated,
    followed by the second list deduplicated without the values the
    first list already has.  In particular the result for a list is a
    prefix of the result for any extension of it. *)
Theorem Deduplicator_app (l1 l2 : list string) :
  Deduplicator (l1 ++ l2)
  = Deduplicator l1 ++ filter (λ k, k ∉ l1) (Deduplicator l2).
Proof.
  unfold Deduplicator. rewrite uniq_loop_app. f_equal.
  rewrite uniq_loop_union. apply list_filter_iff. intros k.
  by rewrite elem_of_list_to_set.
Qed.

(** X2.  The deduplication loop never lengthens a list, and it leaves a
    list unchanged exactly when the list has no duplicates. *)
Theorem Deduplicator_fixed_points (l : list string) :
  (length (Deduplicator l) ≤ length l)%nat ∧ (Deduplicator l = l ↔ NoDup l).
Proof.
  destruct Deduplicator_facts as (Hfirst & Hnd & Hin). split.
  - unfold Deduplicator. generalize (∅ : gset string) as seen.
    induction l as [|k rest IH]; intros seen; [done|].
    rewrite uniq_loop_cons. case_decide; simpl.
    + specialize (IH seen). lia.
    + specialize (IH ({[k]} ∪ seen)). lia.
  - split.
    + intros <-. apply Hnd.
    + intros Hl. unfold Deduplicator. apply uniq_loop_NoDup_id; [done|set_solver].
Qed.

Lemma uniq_nonempty_loop_filter (kws : list string) :
  Trending.uniq_nonempty_loop ∅ [] kws
  = Deduplicator (filter (λ k, nonempty k = true) kws).
Proof.
  unfold Deduplicator. generalize (∅ : gset string) as seen.
  assert (Hacc : ∀ seen uniq,
            Trending.uniq_nonempty_loop seen uniq kws
            = uniq ++ uniq_loop seen [] (filter (λ k, nonempty k = true) kws)).
  { induction kws as [|k rest IH]; intros seen uniq; simpl.
    - by rewrite app_nil_r.
    - destruct (nonempty k) eqn:Hk; simpl.
      + rewrite filter_cons_True by done. rewrite uniq_loop_cons.
        destruct (decide (k ∈ seen)) as [Hin|Hin].
        * rewrite bool_decide_false by (intros ?; done). apply IH.
        * rewrite bool_decide_true by done. rewrite IH. by rewrite <- app_assoc.
      + rewrite filter_cons_False by congruence. apply IH. }
  intros seen. apply (Hacc seen []).
Qed.

(** X3.  The deduplication loop of the approximation tier, which also
    drops empty strings, is the deduplication loop of the extractor
    applied to the non-empty strings; so its result has no empty string
    and no duplicate. *)
Theorem uniq_nonempty_loop_Deduplicator (kws : list string) :
  Trending.uniq_nonempty_loop ∅ [] kws
  = Deduplicator (filter (λ k, nonempty k = true) kws)
  ∧ NoDup (Trending.uniq_nonempty_loop ∅ [] kws)
  ∧ Forall (λ k, nonempty k = true) (Trending.uniq_nonempty_loop ∅ [] kws).
Proof.
  rewrite uniq_nonempty_loop_filter.
  destruct Deduplicator_facts as (_ & Hnd & Hin). split_and!; [done|apply Hnd|].
  rewrite Forall_forall. intros k Hk. apply (proj1 (Hin _ _)) in Hk.
  by apply list_elem_of_filter in Hk as [Hne _].
Qed.

(** ** More on the extractor *)

Lemma scan_candidates_clean row cands kw kw' :
  (∀ k, kw = Some k → ∃ s, k = strip s) →
  scan_candidates row cands kw = Ok kw' →
  ∀ k, kw' = Some k → ∃ s, k = strip s.
Proof.
  revert kw. induction cands as [|c rest IH]; intros kw Hkw; simpl.
  - by intros [= <-].
  - destruct (py_bool _) as [[]|]; simpl; try done.
    + destruct (py_str _) as [s|]; simpl; try done.
      destruct (nonempty (strip s)).
      * intros [= <-] k [= <-]. eauto.
      * apply IH. intros k [= <-]. eauto.
    + by apply IH.
Qed.

Lemma rows_loop_clean cands rs out out' :
  Forall clean out → rows_loop cands rs out = Ok out' → Forall clean out'.
Proof.
  revert out. induction rs as [|row rs IH]; intros out Hout; simpl.
  - by intros [= <-].
  - destruct (scan_candidates row cands None) as [kw|] eqn:Hscan; simpl; [|done].
    apply IH. destruct kw as [k|]; [|done].
    destruct (nonempty k) eqn:Hk; [|done].
    apply Forall_app. split; [done|]. apply Forall_singleton.
    destruct (scan_candidates_clean row cands None (Some k)) with (k := k)
      as [s ->]; try done.
    split; [done|]. apply strip_idempotent.
Qed.

Lemma extract_clean df out :
  _safe_extract_keywords_from_df df = Ok out →
  NoDup out ∧ Forall clean out.
Proof.
  unfold _safe_extract_keywords_from_df.
  destruct df as [df|]; [|intros [= <-]; split; constructor].
  destruct (df_empty df); [intros [= <-]; split; constructor|].
  destruct (rows_loop _ _ _) as [ks|] eqn:Hks; simpl; [|done].
  intros [= <-]. split; [apply NoDup_uniq_loop|].
  apply rows_loop_clean in Hks; [|constructor].
  rewrite Forall_forall in *. intros k Hk. apply Hks.
  apply elem_of_uniq_loop in Hk. tauto.
Qed.

(** X4.  Whatever table it is given, a list the extractor returns holds
    only keywords that are not empty and carry no whitespace at either
    end, and holds none of them twice. *)
Theorem extractor_output_clean df out :
  _safe_extract_keywords_from_df df = Ok out →
  NoDup out ∧ Forall clean out.
Proof. apply extract_clean. Qed.

Lemma extractor_output_clean_witness :
  NoDup ["BTS"; "Election"] ∧ Forall clean ["BTS"; "Election"].
Proof.
  apply (extractor_output_clean (Some unnamed_column)). vm_compute. reflexivity.
Defined.

Lemma scan_candidates_agree row row' cands kw :
  (∀ c, c ∈ cands → row !! c = row' !! c) →
  scan_candidates row cands kw = scan_candidates row' cands kw.
Proof.
  revert kw. induction cands as [|c rest IH]; intros kw Hrows; simpl; [done|].
  unfold row_get. rewrite <- (Hrows c) by set_solver.
  assert (Hrest : ∀ kw, scan_candidates row rest kw = scan_candidates row' rest kw).
  { intros kw0. apply IH. intros c' Hc'. apply Hrows. set_solver. }
  destruct (py_bool _) as [[]|]; simpl; try done.
  destruct (py_str _) as [s|]; simpl; try done.
  destruct (nonempty (strip s)); [done|]. apply Hrest.
Qed.

(** X5.  The extractor looks at nothing but the candidate columns: two
    tables with the same column labels whose rows agree on the cells of
    the candidate columns give the same result, exception included. *)
Theorem extractor_reads_candidates_only cols rs rs' :
  Forall2 (λ row row', ∀ c, c ∈ candidate_cols cols → row !! c = row' !! c) rs rs' →
  _safe_extract_keywords_from_df (Some (mkDataFrame cols rs))
  = _safe_extract_keywords_from_df (Some (mkDataFrame cols rs')).
Proof.
  intros Hrows.
  assert (Hempty : df_empty (mkDataFrame cols rs) = df_empty (mkDataFrame cols rs')).
  { destruct cols; [done|]. by destruct Hrows. }
  unfold _safe_extract_keywords_from_df. rewrite Hempty. cbn [columns rows].
  destruct (df_empty (mkDataFrame cols rs')); [done|].
  assert (Hloop : ∀ out, rows_loop (candidate_cols cols) rs out
                         = rows_loop (candidate_cols cols) rs' out).
  { clear Hempty.
    induction Hrows as [|row row' rs rs' Hrow Hrows IH]; intros out; [done|].
    rewrite !rows_loop_cons, (scan_candidates_agree row row') by done.
    destruct (scan_candidates row' _ None) as [kw|]; [|done].
    change (mbind ?f (Ok ?x)) with (f x). cbv beta. apply IH. }
  by rewrite Hloop.
Qed.

Lemma extractor_reads_candidates_only_witness :
  _safe_extract_keywords_from_df
    (Some (mkDataFrame [LStr "title"; LStr "entityNames"]
       [{[ LStr "title" := CellVal (PStr "Concert A");
           LStr "entityNames" := CellVal (PObj pd_NA) ]}]))
  = _safe_extract_keywords_from_df
      (Some (mkDataFrame [LStr "title"; LStr "entityNames"]
         [row1 (LStr "title") (PStr "Concert A")])).
Proof.
  apply extractor_reads_candidates_only. repeat constructor.
  intros c Hc. assert (c = LStr "title") as -> by set_solver. reflexivity.
Defined.

Lemma candidate_cols_query cols :
  LStr "query" ∈ cols → ∃ rest, candidate_cols cols = LStr "query" :: rest.
Proof.
  intros Hq. unfold candidate_cols, preferred_cols.
  rewrite filter_cons_True by done. destruct cols; eauto.
Qed.

(** X6.  When the table has a column named query, a row whose query is
    a string that is not blank gets that string, trimmed, as its
    keyword, whatever its other cells hold: the scan stops there and
    never reads them.  A table in which every row is like that yields
    the trimmed queries, deduplicated. *)
Theorem query_column_decides cols r rs ss :
  LStr "query" ∈ cols →
  Forall2 (λ row s, row !! LStr "query" = Some (CellVal (PStr s))
                    ∧ nonempty (strip s) = true) (r :: rs) ss →
  _safe_extract_keywords_from_df (Some (mkDataFrame cols (r :: rs)))
  = Ok (Deduplicator (strip <$> ss)).
Proof.
  intros Hq Hrows. destruct (candidate_cols_query cols Hq) as [rest Hcands].
  unfold _safe_extract_keywords_from_df.
  assert (df_empty (mkDataFrame cols (r :: rs)) = false) as -> by by destruct cols.
  cbn [columns rows]. rewrite Hcands.
  assert (Hloop : ∀ out, rows_loop (LStr "query" :: rest) (r :: rs) out
                         = Ok (out ++ (strip <$> ss))).
  { induction Hrows as [|row s rs' ss' [Hrow Hs] Hrows IH]; intros out.
    - simpl. by rewrite app_nil_r.
    - rewrite rows_loop_cons.
      assert (scan_candidates row (LStr "query" :: rest) None = Ok (Some (strip s))) as ->.
      { simpl. unfold row_get. rewrite Hrow. simpl.
        rewrite (strip_nonempty _ Hs). simpl. by rewrite Hs. }
      change (mbind ?f (Ok ?x)) with (f x). cbv beta. cbn [usable]. rewrite Hs.
      rewrite IH, fmap_cons. by rewrite <- app_assoc. }
  by rewrite Hloop.
Qed.

Lemma query_column_decides_witness :
  _safe_extract_keywords_from_df
    (Some (mkDataFrame [LStr "title"; LStr "query"]
       [{[ LStr "title" := CellVal (PObj pd_NA);
           LStr "query" := CellVal (PStr " concert a ") ]}]))
  = Ok (Deduplicator (strip <$> [" concert a "])).
Proof.
  apply query_column_decides; [set_solver|]. repeat constructor.
Defined.

(** ** More on the tiered strategy *)

Lemma tier_outcome_clean r kws :
  tier_outcome r = Ok kws → NoDup kws ∧ Forall clean kws.
Proof.
  unfold tier_outcome. destruct r as [df|]; [|done].
  apply extract_clean.
Qed.

Lemma first_usable_attempts pytrends today pn :
  ∃ kws src,
    first_usable (attempts pytrends today pn) = (kws, src)
    ∧ (kws = [] ↔ src = "none")
    ∧ src ∈ ["realtime_trending_searches"; "trending_searches";
             "daily_search_trends"; "none"]
    ∧ NoDup kws ∧ Forall clean kws.
Proof.
  unfold attempts.
  pose proof (tier_outcome_clean (tr_realtime_trending_searches pytrends pn)) as H1.
  pose proof (tier_outcome_clean (tr_trending_searches pytrends pn)) as H2.
  pose proof (tier_outcome_clean (tr_daily_search_trends pytrends pn today)) as H3.
  destruct (tier_outcome (tr_realtime_trending_searches pytrends pn)) as [[|k1 ks1]|e1];
    [| destruct (H1 _ eq_refl); eexists _, _; split; [reflexivity|];
       split_and!; [done|set_solver|done..] |].
  all: destruct (tier_outcome (tr_trending_searches pytrends pn)) as [[|k2 ks2]|e2];
    [| destruct (H2 _ eq_refl); eexists _, _; split; [reflexivity|];
       split_and!; [done|set_solver|done..] |].
  all: destruct (tier_outcome (tr_daily_search_trends pytrends pn today)) as [[|k3 ks3]|e3];
    [| destruct (H3 _ eq_refl) |].
  all: eexists _, _; (split; [reflexivity|]);
    split_and!; [done|set_solver|try done; constructor..].
Qed.

(** X7.  [fetch_trending_keywords] returns the empty list exactly when
    it returns the name none; otherwise the name is that of one of the
    three feeds.  The keywords it returns are distinct, not empty and
    trimmed. *)
Theorem fetch_trending_keywords_result pytrends today pn w :
  ∃ kws src,
    (Trending.fetch_trending_keywords pytrends today pn w).1 = Ret (kws, src)
    ∧ (kws = [] ↔ src = "none")
    ∧ src ∈ ["realtime_trending_searches"; "trending_searches";
             "daily_search_trends"; "none"]
    ∧ NoDup kws ∧ Forall clean kws.
Proof.
  rewrite fetch_trending_keywords_run. cbv zeta. cbn [fst].
  destruct (first_usable_attempts pytrends today pn) as (kws & src & -> & H).
  by exists kws, src.
Qed.

(** ** The approximation tier *)

Lemma rising_rows_loop_stripped rs kws kws' :
  Forall (λ k, ∃ s, k = strip s) kws →
  Trending.rising_rows_loop rs kws = Ok kws' →
  Forall (λ k, ∃ s, k = strip s) kws'.
Proof.
  revert kws. induction rs as [|row rs IH]; intros kws Hkws; simpl.
  - by intros [= <-].
  - destruct (row_get row (LStr "query")) as [q|]; simpl; [|done].
    destruct (py_bool q) as [[]|]; simpl; [|by apply IH|done].
    destruct (py_str q) as [s|]; simpl; [|done].
    apply IH. apply Forall_app. split; [done|]. apply Forall_singleton. eauto.
Qed.

Lemma uniq_nonempty_loop_clean kws :
  Forall (λ k, ∃ s, k = strip s) kws →
  NoDup (Trending.uniq_nonempty_loop ∅ [] kws)
  ∧ Forall clean (Trending.uniq_nonempty_loop ∅ [] kws).
Proof.
  intros Hkws. rewrite uniq_nonempty_loop_filter.
  destruct Deduplicator_facts as (_ & Hnd & Hin). split; [apply Hnd|].
  rewrite Forall_forall in *. intros k Hk. apply (proj1 (Hin _ _)) in Hk.
  apply list_elem_of_filter in Hk as [Hne Hk].
  destruct (Hkws k Hk) as [s ->]. split; [done|apply strip_idempotent].
Qed.

Lemma traced_fetch_youtube_outcome pytrends geo d :
  ∃ o errs reqs,
    traced (Trending.fetch_youtube_like_keywords_experimental pytrends geo d)
      o errs reqs []
    ∧ ((∃ kws, o = Ret kws ∧ reqs = [youtube_payload geo d; RelatedQueries]
               ∧ NoDup kws ∧ Forall clean kws)
       ∨ (∃ e, o = Raise e
               ∧ (reqs = [youtube_payload geo d]
                  ∨ reqs = [youtube_payload geo d; RelatedQueries]))).
Proof.
  unfold Trending.fetch_youtube_like_keywords_experimental, build_payload,
    related_queries, youtube_payload.
  destruct (tr_build_payload pytrends ["youtube"] 0
              ("now " +:+ pretty d +:+ "-d") geo "youtube") as [[]|e] eqn:Hb.
  2:{ eexists _, _, _. split; [traced_go|]. right. eexists. split; [done|by left]. }
  destruct (tr_related_queries pytrends) as [rq|e] eqn:Hq.
  2:{ eexists _, _, _. split; [traced_go|]. right. eexists. split; [done|by right]. }
  destruct (rising_of "youtube" rq) as [df|] eqn:Hr.
  2:{ eexists _, _, _. split; [traced_go|]. left.
      eexists. split_and!; [done|done|constructor..]. }
  destruct (df_empty df) eqn:He.
  { eexists _, _, _. split; [traced_go|]. left.
    eexists. split_and!; [done|done|constructor..]. }
  destruct (Trending.rising_rows_loop (rows df) []) as [kws|e] eqn:Hl.
  - eexists _, _, _. split; [traced_go|]. left.
    apply rising_rows_loop_stripped in Hl; [|constructor].
    destruct (uniq_nonempty_loop_clean kws Hl). eexists. by split_and!.
  - eexists _, _, _. split; [traced_go|]. right. eexists. split; [done|by right].
Qed.

(** X8.  In every world the approximation tier asks for the payload of
    the seed youtube over the last [days] days in the region, then at
    most for the related queries, and nothing else; it writes nothing to
    standard output; and it either raises, or returns, after both
    requests, keywords that are distinct, not empty and trimmed. *)
Theorem fetch_youtube_outcome pytrends geo d :
  ∃ o errs reqs,
    traced (Trending.fetch_youtube_like_keywords_experimental pytrends geo d)
      o errs reqs []
    ∧ ((∃ kws, o = Ret kws ∧ reqs = [youtube_payload geo d; RelatedQueries]
               ∧ NoDup kws ∧ Forall clean kws)
       ∨ (∃ e, o = Raise e
               ∧ (reqs = [youtube_payload geo d]
                  ∨ reqs = [youtube_payload geo d; RelatedQueries]))).
Proof. apply traced_fetch_youtube_outcome. Qed.

(** X9.  When the source has no rising table for the seed (no entry for
    the seed, no rising entry, [None], or a table without rows), the
    approximation tier returns the empty list after its two requests,
    without raising and without its closing log line. *)
Theorem fetch_youtube_no_data pytrends geo d rq :
  tr_build_payload pytrends ["youtube"] 0 ("now " +:+ pretty d +:+ "-d") geo "youtube"
    = Ok () →
  tr_related_queries pytrends = Ok rq →
  (rising_of "youtube" rq = None
   ∨ ∃ df, rising_of "youtube" rq = Some df ∧ df_empty df = true) →
  traced (Trending.fetch_youtube_like_keywords_experimental pytrends geo d)
    (Ret []) [LogYoutubeAttempt "youtube" geo ("now " +:+ pretty d +:+ "-d")]
    [youtube_payload geo d; RelatedQueries] [].
Proof.
  intros Hb Hq Hnone.
  unfold Trending.fetch_youtube_like_keywords_experimental, build_payload,
    related_queries, youtube_payload.
  destruct Hnone as [Hr|(df & Hr & He)]; traced_go.
Qed.

Lemma fetch_youtube_no_data_witness :
  traced (Trending.fetch_youtube_like_keywords_experimental quiet_source "KR" 7)
    (Ret []) [LogYoutubeAttempt "youtube" "KR" ("now " +:+ pretty 7 +:+ "-d")]
    [youtube_payload "KR" 7; RelatedQueries] [].
Proof.
  apply (fetch_youtube_no_data quiet_source "KR" 7 ∅); try reflexivity. by left.
Defined.
(** ** More on the trending program *)

Lemma run_traced_stderr (m : M unit) o errs reqs docs :
  traced m o errs reqs docs →
  narrated m = match o with Raise e => errs ++ [Traceback e] | _ => errs end.
Proof.
  intros Hm. unfold narrated, run. rewrite (Hm fresh). by destruct o.
Qed.

Lemma traced_hoare {A} (P : call → Prop) (Q : A → Prop) (m : M A) o errs reqs :
  traced m o errs reqs [] → Forall P reqs → o ≠ Exit 0 →
  (∀ a, o = Ret a → Q a) → hoare P m Q.
Proof.
  intros Hm HP Ho HQ w. exists errs, reqs. rewrite (Hm w). unfold extend.
  cbn [fst snd]. rewrite app_nil_r. by split_and!.
Qed.

Lemma valid_command_parse a r d :
  valid_command a r d →
  Trending.parse_args a
  = mret (mkNamespace r (default "7" (arg_days a)) (arg_prefer_youtube a)).
Proof. intros (Hx & Hr & Hin & _). by apply trending_parse_args_ok. Qed.

Section TrendingProgram.
Variable pytrends : TrendReq.
Variable today : string.

(** The approximation tier returned keywords: they make the document and
    no feed is asked. *)
Lemma trending_main_approximation a r d k ks e1 r1 :
  valid_command a r d →
  arg_prefer_youtube a = true →
  tr_init pytrends = Ok () →
  traced (Trending.fetch_youtube_like_keywords_experimental pytrends (geo_of r) d)
    (Ret (k :: ks)) e1 r1 [] →
  ∃ errs,
    traced (Trending.main pytrends today a) (Ret ()) errs (NewTrendReq :: r1)
      [to_dict (foldl (Trending.add_keyword today) (mkResult r d [] []) (k :: ks))]
    ∧ LogDone "youtube_experimental_related_queries" (length (k :: ks)) ∈ errs.
Proof.
  intros Hvalid Hflag Hinit Hyt.
  pose proof (valid_command_parse a r d Hvalid) as Hparse.
  destruct Hvalid as (Hx & Hr & Hin & Hd).
  assert (Hdoc : serialisable (to_dict (foldl (Trending.add_keyword today)
                                          (mkResult r d [] []) (k :: ks))) = true).
  { apply (trending_document_serialisable today). by eexists _, _, _. }
  assert (Hlen : length (res_items (foldl (Trending.add_keyword today)
                                      (mkResult r d [] []) (k :: ks)))
                 = length (k :: ks)).
  { rewrite foldl_add_keyword. simpl. by rewrite length_fmap. }
  assert (Hrun : ∃ errs reqs docs,
            traced (Trending.main pytrends today a) (Ret ()) errs reqs docs
            ∧ reqs = NewTrendReq :: r1
            ∧ docs = [to_dict (foldl (Trending.add_keyword today)
                                 (mkResult r d [] []) (k :: ks))]
            ∧ LogDone "youtube_experimental_related_queries" (length (k :: ks)) ∈ errs).
  { eexists _, _, _. split.
    - unfold Trending.main, new_TrendReq, json_dumps. traced_go.
    - split_and!; [simpl; by rewrite ?app_nil_r..|]. set_solver. }
  destruct Hrun as (errs & ? & ? & Hrun & -> & -> & Hlog). eauto.
Qed.

(** On a valid command line with a client that can be built, [main]
    returns after writing one document of distinct clean keywords. *)
Lemma trending_main_ok a r d :
  valid_command a r d →
  tr_init pytrends = Ok () →
  ∃ errs reqs kws,
    traced (Trending.main pytrends today a) (Ret ()) errs (NewTrendReq :: reqs)
      [to_dict (foldl (Trending.add_keyword today) (mkResult r d [] []) kws)]
    ∧ NoDup kws ∧ Forall clean kws.
Proof.
  intros Hvalid Hinit. pose proof Hvalid as (Hx & Hr & Hin & Hd).
  destruct (first_usable_attempts pytrends today (pn_of r))
    as (kws & src & Hfirst & _ & _ & Hnd & Hclean).
  assert (Hstd : (arg_prefer_youtube a = true →
            ∀ w, let o := (Trending.fetch_youtube_like_keywords_experimental
                             pytrends (geo_of r) d w).1 in
                 o = Ret [] ∨ ∃ e, o = Raise e) →
          ∃ errs reqs kws,
            traced (Trending.main pytrends today a) (Ret ()) errs (NewTrendReq :: reqs)
              [to_dict (foldl (Trending.add_keyword today) (mkResult r d [] []) kws)]
            ∧ NoDup kws ∧ Forall clean kws).
  { intros Hfail.
    destruct (trending_main_traced pytrends today a r d Hx Hr Hin Hd Hinit Hfail)
      as (errs & reqs & Hrun & _).
    rewrite Hfirst in Hrun. eauto 10. }
  destruct (arg_prefer_youtube a) eqn:Hflag; [|by apply Hstd].
  destruct (traced_fetch_youtube_outcome pytrends (geo_of r) d)
    as (o & e1 & r1 & Hyt & [(ykws & -> & _ & Hynd & Hyclean)|(e & -> & _)]).
  - destruct ykws as [|k ks].
    + apply Hstd. intros _ w. rewrite (Hyt w). by left.
    + destruct (trending_main_approximation a r d k ks e1 r1) as (errs & Hrun & _);
        try done.
      eauto 10.
  - apply Hstd. intros _ w. rewrite (Hyt w). right. eauto.
Qed.

(** The four ways a run of the trending program can go. *)
Lemma trending_main_outcomes a :
  (¬ (∃ r, arg_extra a = [] ∧ arg_region a = Some r ∧ r ∈ supported)
   ∧ traced (Trending.main pytrends today a) (Exit 2) [Usage] [] [])
  ∨ (∃ r e, arg_extra a = [] ∧ arg_region a = Some r ∧ r ∈ supported
            ∧ py_int (default "7" (arg_days a)) = Err e
            ∧ traced (Trending.main pytrends today a) (Raise e) [] [] [])
  ∨ (∃ r d e, valid_command a r d ∧ tr_init pytrends = Err e
       ∧ traced (Trending.main pytrends today a) (Exit 1)
           [LogStart r (geo_of r) (pn_of r) d (arg_prefer_youtube a); LogFatal e]
           [NewTrendReq] [])
  ∨ (∃ r d errs reqs kws, valid_command a r d ∧ tr_init pytrends = Ok ()
       ∧ traced (Trending.main pytrends today a) (Ret ()) errs (NewTrendReq :: reqs)
           [to_dict (foldl (Trending.add_keyword today) (mkResult r d [] []) kws)]
       ∧ NoDup kws ∧ Forall clean kws).
Proof.
  destruct (arg_extra a) as [|x xs] eqn:Hx.
  2:{ left. split; [by intros (r & ? & _)|].
      unfold Trending.main, Trending.parse_args, parser_error. traced_go. }
  destruct (arg_region a) as [r|] eqn:Hr.
  2:{ left. split; [by intros (r & _ & ? & _)|].
      unfold Trending.main, Trending.parse_args, parser_error. traced_go. }
  destruct (decide (r ∈ supported)) as [Hin|Hin].
  2:{ left. split; [intros (r' & _ & ? & ?); congruence|].
      unfold Trending.main, Trending.parse_args, parser_error.
      rewrite Hx, Hr. rewrite decide_False by done. traced_go. }
  pose proof (trending_parse_args_ok a r Hx Hr Hin) as Hparse.
  destruct (py_int (default "7" (arg_days a))) as [d|e] eqn:Hd.
  2:{ right. left. exists r, e. split_and!; [done..|]. unfold Trending.main. traced_go. }
  assert (Hvalid : valid_command a r d) by done.
  destruct (tr_init pytrends) as [[]|e] eqn:Hinit.
  - do 3 right. destruct (trending_main_ok a r d Hvalid Hinit)
      as (errs & reqs & kws & Hrun & Hnd & Hclean).
    by exists r, d, errs, reqs, kws.
  - do 2 right. left. exists r, d, e. split_and!; [done..|].
    unfold Trending.main, new_TrendReq. fold (geo_of r) (pn_of r).
    assert (Hrun : ∃ errs reqs docs,
              traced (Trending.main pytrends today a) (Exit 1) errs reqs docs
              ∧ errs = [LogStart r (geo_of r) (pn_of r) d (arg_prefer_youtube a); LogFatal e]
              ∧ reqs = [NewTrendReq] ∧ docs = []).
    { eexists _, _, _. split; [unfold Trending.main, new_TrendReq; traced_go|].
      by split_and!. }
    by destruct Hrun as (? & ? & ? & Hrun & -> & -> & ->).
Qed.
End TrendingProgram.

(** X10.  With the opt-in flag on a valid command line, when the
    approximation tier returns keywords the program stops there: it
    exits with status 0, writes the document built from those keywords,
    logs their number under the approximation's name, and asks none of
    the three feeds. *)
Theorem approximation_success_skips_feeds pytrends today a r d k ks :
  valid_command a r d →
  arg_prefer_youtube a = true →
  tr_init pytrends = Ok () →
  (∀ w, (Trending.fetch_youtube_like_keywords_experimental
           pytrends (geo_of r) d w).1 = Ret (k :: ks)) →
  exit_code (Trending.main pytrends today a) = 0
  ∧ written (Trending.main pytrends today a)
    = [to_dict (foldl (Trending.add_keyword today) (mkResult r d [] []) (k :: ks))]
  ∧ contacted (Trending.main pytrends today a)
    = [NewTrendReq; youtube_payload (geo_of r) d; RelatedQueries]
  ∧ LogDone "youtube_experimental_related_queries" (length (k :: ks))
      ∈ narrated (Trending.main pytrends today a).
Proof.
  intros Hvalid Hflag Hinit Hyes.
  destruct (traced_fetch_youtube_outcome pytrends (geo_of r) d)
    as (o & e1 & r1 & Hyt & Ho).
  specialize (Hyes fresh). rewrite (Hyt fresh) in Hyes. cbn [fst] in Hyes. subst o.
  destruct Ho as [(kws & _ & -> & _)|(e & ? & _)]; [|done].
  destruct (trending_main_approximation pytrends today a r d k ks e1 _
              Hvalid Hflag Hinit Hyt) as (errs & Hrun & Hlog).
  pose proof (run_traced_stderr _ _ _ _ _ Hrun) as Herr.
  apply run_traced in Hrun as (-> & -> & ->). rewrite Herr. by split_and!.
Qed.

Lemma approximation_success_skips_feeds_witness :
  exit_code (Trending.main youtube_source "2026-01-07" kr7_youtube) = 0
  ∧ written (Trending.main youtube_source "2026-01-07" kr7_youtube)
    = [to_dict (foldl (Trending.add_keyword "2026-01-07") (mkResult "KR" 7 [] [])
                  ["youtube music"])]
  ∧ contacted (Trending.main youtube_source "2026-01-07" kr7_youtube)
    = [NewTrendReq; youtube_payload (geo_of "KR") 7; RelatedQueries]
  ∧ LogDone "youtube_experimental_related_queries" (length ["youtube music"])
      ∈ narrated (Trending.main youtube_source "2026-01-07" kr7_youtube).
Proof.
  apply (approximation_success_skips_feeds youtube_source "2026-01-07" kr7_youtube
           "KR" 7 "youtube music" []).
  - split_and!; try reflexivity. repeat constructor.
  - reflexivity.
  - reflexivity.
  - intros w. reflexivity.
Defined.

(** X11.  The exit status of the trending program is 0, 1 or 2.  It is 2
    exactly when argparse rejects the command line (a stray argument, no
    region, or a region other than KR, US, MX), and 0 exactly when the
    command line is valid and the client can be built: whatever the
    source then answers, the run succeeds. *)
Theorem trending_exit_status pytrends today a :
  let code := exit_code (Trending.main pytrends today a) in
  (code = 0 ∨ code = 1 ∨ code = 2)
  ∧ (code = 2 ↔ ¬ ∃ r, arg_extra a = [] ∧ arg_region a = Some r ∧ r ∈ supported)
  ∧ (code = 0 ↔ ∃ r d, valid_command a r d ∧ tr_init pytrends = Ok ()).
Proof.
  destruct (trending_main_outcomes pytrends today a)
    as [[Hrej Hrun]|[(r & e & Hx & Hr & Hin & Hd & Hrun)|[(r & d & e & Hvalid & Hinit & Hrun)
       |(r & d & errs & reqs & kws & Hvalid & Hinit & Hrun & _)]]];
    apply run_traced in Hrun as (-> & _ & _); cbv zeta.
  - split_and!; [tauto|tauto|]. split; [done|].
    intros (r & d & (? & ? & ? & _) & _). destruct Hrej. eauto.
  - split_and!; [tauto| |].
    + split; [done|]. intros Hrej. destruct Hrej. eauto.
    + split; [done|]. intros (r' & d & (_ & _ & _ & Hd') & _). congruence.
  - split_and!; [tauto| |].
    + split; [done|]. intros Hrej. destruct Hrej. destruct Hvalid as (? & ? & ? & _). eauto.
    + split; [done|]. intros (r' & d' & _ & Hinit'). congruence.
  - split_and!; [tauto| |].
    + split; [done|]. intros Hrej. destruct Hrej. destruct Hvalid as (? & ? & ? & _). eauto.
    + split; [intros _; eauto|done].
Qed.
(** ** More on the rising program *)

Lemma rising_parse_args_ok a r :
  arg_extra a = [] → arg_prefer_youtube a = false →
  arg_region a = Some r → r ∈ supported →
  Rising.parse_args a = mret (mkNamespace r (default "7" (arg_days a)) false).
Proof.
  intros Hx Hflag Hr Hin. unfold Rising.parse_args. rewrite Hx, Hflag, Hr.
  by rewrite decide_True.
Qed.

Lemma rising_rows_loop_items today rs items result :
  Forall2 (rising_row today) rs items →
  Rising.rows_loop today rs result
  = Ok (mkResult (res_region result) (res_days result)
          (res_items result ++ items) (res_keywords result ++ items)).
Proof.
  intros Hrows. revert result.
  induction Hrows as [|row item rs items (kw & v & t & Hq & Hv & Ht & ->) Hrows IH];
    intros result.
  - simpl. rewrite !app_nil_r. by destruct result.
  - simpl. unfold row_getitem. rewrite Hq, Hv. simpl. rewrite Ht. simpl.
    rewrite IH. simpl. by rewrite <- !app_assoc.
Qed.

Lemma rising_rows_loop_lacking today rs result :
  Exists lacks_column rs → ∃ e, Rising.rows_loop today rs result = Err e.
Proof.
  intros Hbad. revert result. induction Hbad as [row rs Hrow|row rs Hbad IH];
    intros result; simpl.
  - unfold row_getitem. destruct Hrow as [-> | Hv]; [by eauto|].
    destruct (row !! LStr "query") as [[kw|e]|]; simpl; [|by eauto..].
    rewrite Hv. simpl. eauto.
  - destruct (row_getitem row (LStr "query")) as [kw|]; simpl; [|by eauto].
    destruct (row_getitem row (LStr "value")) as [v|]; simpl; [|by eauto].
    destruct (py_str v) as [t|]; simpl; [|by eauto]. apply IH.
Qed.

Lemma rising_rows_loop_header today rs result result' :
  Rising.rows_loop today rs result = Ok result' →
  res_region result' = res_region result ∧ res_days result' = res_days result.
Proof.
  revert result. induction rs as [|row rs IH]; intros result; simpl.
  - by intros [= <-].
  - destruct (row_getitem row (LStr "query")) as [keyword|]; simpl; [|done].
    destruct (row_getitem row (LStr "value")) as [value|]; simpl; [|done].
    destruct (py_str value) as [traffic|]; simpl; [|done].
    intros Hloop. by destruct (IH _ Hloop).
Qed.

Section RisingProgram.
Variable pytrends : TrendReq.
Variable today : string.

(** Every run of the rising program, by cases on what the command line
    and the source are. *)
Lemma rising_main_outcomes a :
  (¬ (∃ r, arg_extra a = [] ∧ arg_prefer_youtube a = false
           ∧ arg_region a = Some r ∧ r ∈ supported)
   ∧ traced (Rising.main pytrends today a) (Exit 2) [Usage] [] [])
  ∨ ∃ r, arg_extra a = [] ∧ arg_prefer_youtube a = false
         ∧ arg_region a = Some r ∧ r ∈ supported
    ∧ ((∃ e, py_int (default "7" (arg_days a)) = Err e
             ∧ traced (Rising.main pytrends today a) (Raise e) [] [] [])
       ∨ ∃ d, py_int (default "7" (arg_days a)) = Ok d
         ∧ ∃ o errs n docs,
             traced (Rising.main pytrends today a) o errs
               (take n (rising_order (geo_of r) (default "7" (arg_days a)))) docs
             ∧ (n = 1 ∨ n = 2 ∨ n = 3)%nat
             ∧ ((o = Exit 1 ∧ docs = [])
                ∨ (∃ e, o = Raise e ∧ docs = [])
                ∨ (o = Ret () ∧ n = 3%nat ∧ ∃ items, docs = [to_dict (mkResult r d items items)]))).
Proof.
  destruct (arg_extra a) as [|x xs] eqn:Hx.
  2:{ left. split; [by intros (r & ? & _)|].
      unfold Rising.main, Rising.parse_args, parser_error. traced_go. }
  destruct (arg_prefer_youtube a) eqn:Hflag.
  { left. split; [by intros (r & _ & ? & _)|].
    unfold Rising.main, Rising.parse_args, parser_error. traced_go. }
  destruct (arg_region a) as [r|] eqn:Hr.
  2:{ left. split; [by intros (r & _ & _ & ? & _)|].
      unfold Rising.main, Rising.parse_args, parser_error. traced_go. }
  destruct (decide (r ∈ supported)) as [Hin|Hin].
  2:{ left. split; [intros (r' & _ & _ & ? & ?); congruence|].
      unfold Rising.main, Rising.parse_args, parser_error.
      rewrite Hx, Hflag, Hr. rewrite decide_False by done. traced_go. }
  pose proof (rising_parse_args_ok a r Hx Hflag Hr Hin) as Hparse.
  right. exists r. split_and!; [done..|].
  destruct (py_int (default "7" (arg_days a))) as [d|e] eqn:Hd.
  2:{ left. exists e. split; [done|]. unfold Rising.main. traced_go. }
  right. exists d. split; [done|].
  assert (Hgoal : ∀ o n docs,
    (∃ errs reqs docs', traced (Rising.main pytrends today a) o errs reqs docs'
        ∧ reqs = take n (rising_order (geo_of r) (default "7" (arg_days a)))
        ∧ docs' = docs) →
    (n = 1 ∨ n = 2 ∨ n = 3)%nat →
    ((o = Exit 1 ∧ docs = []) ∨ (∃ e, o = Raise e ∧ docs = [])
     ∨ (o = Ret () ∧ n = 3%nat ∧ ∃ items, docs = [to_dict (mkResult r d items items)])) →
    ∃ o errs n docs,
      traced (Rising.main pytrends today a) o errs
        (take n (rising_order (geo_of r) (default "7" (arg_days a)))) docs
      ∧ (n = 1 ∨ n = 2 ∨ n = 3)%nat
      ∧ ((o = Exit 1 ∧ docs = []) ∨ (∃ e, o = Raise e ∧ docs = [])
         ∨ (o = Ret () ∧ n = 3%nat ∧ ∃ items, docs = [to_dict (mkResult r d items items)]))).
  { intros o n docs (errs & ? & ? & Hrun & -> & ->) Hn Ho. by exists o, errs, n, docs. }
  destruct (tr_init pytrends) as [[]|e] eqn:Hinit.
  2:{ apply (Hgoal (Exit 1) 1%nat []); [|tauto..].
      eexists _, _, _. split; [unfold Rising.main, new_TrendReq; traced_go|by split]. }
  destruct (tr_build_payload pytrends [""] 0
              ("now " +:+ default "7" (arg_days a) +:+ "-d")
              (default "KR" (Rising.REGION_GEO_MAP !! r)) "youtube")
    as [[]|e] eqn:Hb.
  2:{ apply (Hgoal (Exit 1) 2%nat []); [|tauto..].
      eexists _, _, _.
      split; [unfold Rising.main, new_TrendReq, build_payload; traced_go|by split]. }
  destruct (tr_related_queries pytrends) as [rq|e] eqn:Hq.
  2:{ apply (Hgoal (Exit 1) 3%nat []); [|tauto..].
      eexists _, _, _.
      split; [unfold Rising.main, new_TrendReq, build_payload, related_queries;
              traced_go|by split]. }
  assert (Hempty : serialisable (to_dict (mkResult r d [] [])) = true) by done.
  destruct (rising_of "" rq) as [df|] eqn:Hrising.
  2:{ apply (Hgoal (Ret ()) 3%nat [to_dict (mkResult r d [] [])]); [|tauto|].
      - eexists _, _, _.
        split; [unfold Rising.main, new_TrendReq, build_payload, related_queries, json_dumps;
                traced_go|by split].
      - right. right. eauto. }
  destruct (df_empty df) eqn:He.
  { apply (Hgoal (Ret ()) 3%nat [to_dict (mkResult r d [] [])]); [|tauto|].
    - eexists _, _, _.
      split; [unfold Rising.main, new_TrendReq, build_payload, related_queries, json_dumps;
              traced_go|by split].
    - right. right. eauto. }
  clear Hempty.
  destruct (Rising.rows_loop today (rows df) (mkResult r d [] [])) as [result|e] eqn:Hloop.
  2:{ apply (Hgoal (Exit 1) 3%nat []); [|tauto..].
      eexists _, _, _.
      split; [unfold Rising.main, new_TrendReq, build_payload, related_queries;
              traced_go|by split]. }
  assert (Hres : ∃ items, result = mkResult r d items items).
  { pose proof (rising_rows_loop_document today _ _ _ Hloop eq_refl) as Hdoc.
    destruct (rising_rows_loop_header today _ _ _ Hloop) as [Hreg Hdays].
    exists (res_items result). destruct result as [r' d' items kws].
    unfold rising_document in Hdoc. simpl in *. by subst. }
  destruct Hres as [items ->].
  destruct (serialisable (to_dict (mkResult r d items items))) eqn:Hser.
  - apply (Hgoal (Ret ()) 3%nat [to_dict (mkResult r d items items)]); [|tauto|].
    + eexists _, _, _.
      split; [unfold Rising.main, new_TrendReq, build_payload, related_queries, json_dumps;
              traced_go|by split].
    + right. right. eauto.
  - apply (Hgoal (Raise (PyException "TypeError: Object is not JSON serializable")) 3%nat []);
      [|tauto|].
    + eexists _, _, _.
      split; [unfold Rising.main, new_TrendReq, build_payload, related_queries, json_dumps;
              traced_go|by split].
    + right. left. eauto.
Qed.
End RisingProgram.

Ltac rising_run :=
  eexists _, _, _; split;
  [ unfold Rising.main, new_TrendReq, build_payload, related_queries, json_dumps;
    traced_go | ].

Ltac trending_run :=
  eexists _, _, _; split;
  [ unfold Trending.main, new_TrendReq, json_dumps; traced_go | ].

(** What the operating system sees of a run with a known trace. *)
Lemma run_traced_all (m : M unit) o errs reqs docs errs' reqs' docs' :
  (∃ e r d, traced m o e r d ∧ (e = errs ∧ r = reqs ∧ d = docs)) →
  errs' = match o with Raise e => errs ++ [Traceback e] | _ => errs end →
  reqs' = reqs → docs' = docs →
  exit_code m = match o with Ret _ => 0 | Raise _ => 1 | Exit c => c end
  ∧ written m = docs' ∧ contacted m = reqs' ∧ narrated m = errs'.
Proof.
  intros (? & ? & ? & Hrun & -> & -> & ->) -> -> ->.
  pose proof (run_traced_stderr _ _ _ _ _ Hrun).
  apply run_traced in Hrun as (? & ? & ?). by split_and!.
Qed.

(** X12.  For each of the two programs, on a valid command line, when
    the client cannot be built the program logs the exception as fatal
    and exits with status 1, having written nothing and having made no
    request but the construction. *)
Theorem client_construction_failure v pytrends today a r d e :
  valid_command a r d →
  (v = RisingScript → arg_prefer_youtube a = false) →
  tr_init pytrends = Err e →
  exit_code (program v pytrends today a) = 1
  ∧ written (program v pytrends today a) = []
  ∧ contacted (program v pytrends today a) = [NewTrendReq]
  ∧ LogFatal e ∈ narrated (program v pytrends today a).
Proof.
  intros (Hx & Hr & Hin & Hd) Hflag Hinit. destruct v; unfold program.
  - pose proof (trending_parse_args_ok a r Hx Hr Hin) as Hparse.
    edestruct (run_traced_all (Trending.main pytrends today a) (Exit 1))
      as (-> & -> & -> & ->); [trending_run; by split_and!|reflexivity..|].
    split_and!; [done..|]. set_solver.
  - specialize (Hflag eq_refl).
    pose proof (rising_parse_args_ok a r Hx Hflag Hr Hin) as Hparse.
    edestruct (run_traced_all (Rising.main pytrends today a) (Exit 1))
      as (-> & -> & -> & ->); [rising_run; by split_and!|reflexivity..|].
    split_and!; [done..|]. set_solver.
Qed.

Lemma client_construction_failure_witness :
  exit_code (program TrendingScript unreachable "2026-01-07" kr7) = 1
  ∧ written (program TrendingScript unreachable "2026-01-07" kr7) = []
  ∧ contacted (program TrendingScript unreachable "2026-01-07" kr7) = [NewTrendReq]
  ∧ LogFatal (ResponseError "429")
      ∈ narrated (program TrendingScript unreachable "2026-01-07" kr7).
Proof.
  apply (client_construction_failure TrendingScript unreachable "2026-01-07" kr7 "KR" 7).
  - split_and!; try reflexivity. repeat constructor.
  - discriminate.
  - reflexivity.
Defined.

(** X13.  Every document the trending program writes carries the region
    of the command line and its day count as an integer (7 when none is
    given), and its items are built, in order, from keywords that are
    distinct, not empty and trimmed: each item has today's date, one of
    those keywords and an empty traffic, and the keywords list holds the
    same keywords. *)
Theorem trending_documents_well_formed pytrends today a :
  Forall (λ doc, ∃ result, doc = to_dict result ∧ trending_result today a result)
    (written (Trending.main pytrends today a)).
Proof.
  destruct (trending_main_outcomes pytrends today a)
    as [[_ Hrun]|[(r & e & _ & _ & _ & _ & Hrun)|[(r & d & e & _ & _ & Hrun)
       |(r & d & errs & reqs & kws & Hvalid & _ & Hrun & Hnd & Hclean)]]];
    apply run_traced in Hrun as (_ & -> & _); [constructor..|].
  apply Forall_singleton. eexists. split; [done|].
  rewrite foldl_add_keyword. split; [done|]. by exists kws.
Qed.

(** X14.  On a valid command line, when the source has no rising table
    for the empty seed (no entry, [None], or a table without rows), the
    rising program exits with status 0 after its three requests and
    writes the document with no items and no keywords. *)
Theorem rising_no_data pytrends today a r d rq :
  valid_command a r d → arg_prefer_youtube a = false →
  tr_init pytrends = Ok () →
  tr_build_payload pytrends [""] 0 ("now " +:+ default "7" (arg_days a) +:+ "-d")
    (geo_of r) "youtube" = Ok () →
  tr_related_queries pytrends = Ok rq →
  (rising_of "" rq = None ∨ ∃ df, rising_of "" rq = Some df ∧ df_empty df = true) →
  exit_code (Rising.main pytrends today a) = 0
  ∧ written (Rising.main pytrends today a) = [to_dict (mkResult r d [] [])]
  ∧ contacted (Rising.main pytrends today a)
    = rising_order (geo_of r) (default "7" (arg_days a))
  ∧ LogRisingNone ∈ narrated (Rising.main pytrends today a).
Proof.
  intros (Hx & Hr & Hin & Hd) Hflag Hinit Hb Hq Hnone.
  pose proof (rising_parse_args_ok a r Hx Hflag Hr Hin) as Hparse.
  change (geo_of r) with (default "KR" (Rising.REGION_GEO_MAP !! r)) in Hb.
  assert (Hempty : serialisable (to_dict (mkResult r d [] [])) = true) by done.
  destruct Hnone as [Hnone|(df & Hnone & He)].
  - edestruct (run_traced_all (Rising.main pytrends today a) (Ret ()))
      as (-> & -> & -> & ->); [rising_run; by split_and!|reflexivity..|].
    split_and!; [done..|]. set_solver.
  - edestruct (run_traced_all (Rising.main pytrends today a) (Ret ()))
      as (-> & -> & -> & ->); [rising_run; by split_and!|reflexivity..|].
    split_and!; [done..|]. set_solver.
Qed.

Lemma rising_no_data_witness :
  exit_code (Rising.main quiet_source "2026-01-07" kr7) = 0
  ∧ written (Rising.main quiet_source "2026-01-07" kr7) = [to_dict (mkResult "KR" 7 [] [])]
  ∧ contacted (Rising.main quiet_source "2026-01-07" kr7)
    = rising_order (geo_of "KR") (default "7" (arg_days kr7))
  ∧ LogRisingNone ∈ narrated (Rising.main quiet_source "2026-01-07" kr7).
Proof.
  apply (rising_no_data quiet_source "2026-01-07" kr7 "KR" 7 ∅); try reflexivity.
  - split_and!; try reflexivity. repeat constructor.
  - by left.
Defined.

(** X15.  On a valid command line, when the payload request or the
    related-queries request raises, the rising program logs the
    exception as fatal and exits with status 1 with nothing written: it
    does not answer with an empty document. *)
Theorem rising_source_failure pytrends today a r d e :
  valid_command a r d → arg_prefer_youtube a = false →
  tr_init pytrends = Ok () →
  (tr_build_payload pytrends [""] 0 ("now " +:+ default "7" (arg_days a) +:+ "-d")
     (geo_of r) "youtube" = Err e
   ∨ (tr_build_payload pytrends [""] 0 ("now " +:+ default "7" (arg_days a) +:+ "-d")
        (geo_of r) "youtube" = Ok ()
      ∧ tr_related_queries pytrends = Err e)) →
  exit_code (Rising.main pytrends today a) = 1
  ∧ written (Rising.main pytrends today a) = []
  ∧ LogFatal e ∈ narrated (Rising.main pytrends today a).
Proof.
  intros (Hx & Hr & Hin & Hd) Hflag Hinit Hfail.
  pose proof (rising_parse_args_ok a r Hx Hflag Hr Hin) as Hparse.
  change (geo_of r) with (default "KR" (Rising.REGION_GEO_MAP !! r)) in Hfail.
  destruct Hfail as [Hb|[Hb Hq]].
  - edestruct (run_traced_all (Rising.main pytrends today a) (Exit 1))
      as (-> & -> & _ & ->); [rising_run; by split_and!|reflexivity..|].
    split_and!; [done..|]. set_solver.
  - edestruct (run_traced_all (Rising.main pytrends today a) (Exit 1))
      as (-> & -> & _ & ->); [rising_run; by split_and!|reflexivity..|].
    split_and!; [done..|]. set_solver.
Qed.

Lemma rising_source_failure_witness :
  exit_code (Rising.main throttled "2026-01-07" kr7) = 1
  ∧ written (Rising.main throttled "2026-01-07" kr7) = []
  ∧ LogFatal (ResponseError "429") ∈ narrated (Rising.main throttled "2026-01-07" kr7).
Proof.
  apply (rising_source_failure throttled "2026-01-07" kr7 "KR" 7); try reflexivity.
  - split_and!; try reflexivity. repeat constructor.
  - by left.
Defined.

(** X16.  On a valid command line, when the rising table has rows and
    every row has a readable query and a readable value that [str()]
    accepts, and the queries can be serialised, the rising program exits
    with status 0 and writes one item per row, in row order, with the
    query as it is in the table and the value as text; nothing is
    trimmed, skipped or deduplicated. *)
Theorem rising_rows_become_items pytrends today a r d rq df items :
  valid_command a r d → arg_prefer_youtube a = false →
  tr_init pytrends = Ok () →
  tr_build_payload pytrends [""] 0 ("now " +:+ default "7" (arg_days a) +:+ "-d")
    (geo_of r) "youtube" = Ok () →
  tr_related_queries pytrends = Ok rq →
  rising_of "" rq = Some df → df_empty df = false →
  Forall2 (rising_row today) (rows df) items →
  forallb serialisable items = true →
  exit_code (Rising.main pytrends today a) = 0
  ∧ written (Rising.main pytrends today a) = [to_dict (mkResult r d items items)]
  ∧ length items = length (rows df)
  ∧ LogRisingFound (length (rows df)) ∈ narrated (Rising.main pytrends today a).
Proof.
  intros (Hx & Hr & Hin & Hd) Hflag Hinit Hb Hq Hrising He Hrows Hitems.
  pose proof (rising_parse_args_ok a r Hx Hflag Hr Hin) as Hparse.
  change (geo_of r) with (default "KR" (Rising.REGION_GEO_MAP !! r)) in Hb.
  pose proof (rising_rows_loop_items today _ _ (mkResult r d [] []) Hrows) as Hloop.
  cbn [res_region res_days res_items res_keywords app] in Hloop.
  assert (Hser : serialisable (to_dict (mkResult r d items items)) = true).
  { rewrite serialisable_to_dict. cbn [res_items res_keywords]. by rewrite Hitems. }
  edestruct (run_traced_all (Rising.main pytrends today a) (Ret ()))
    as (-> & -> & _ & ->); [rising_run; by split_and!|reflexivity..|].
  split_and!; [done..|symmetry; by eapply Forall2_length|]. set_solver.
Qed.

Lemma rising_rows_become_items_witness :
  exit_code (Rising.main rising_source "2026-01-07" kr7) = 0
  ∧ written (Rising.main rising_source "2026-01-07" kr7)
    = [to_dict (mkResult "KR" 7
                  [rising_item "2026-01-07" (PStr "concert a") "250"]
                  [rising_item "2026-01-07" (PStr "concert a") "250"])]
  ∧ length [rising_item "2026-01-07" (PStr "concert a") "250"] = length (rows rising_table)
  ∧ LogRisingFound (length (rows rising_table))
      ∈ narrated (Rising.main rising_source "2026-01-07" kr7).
Proof.
  apply (rising_rows_become_items rising_source "2026-01-07" kr7 "KR" 7
           {[ "" := {[ "rising" := Some rising_table ]} ]} rising_table);
    try reflexivity.
  - split_and!; try reflexivity. repeat constructor.
  - repeat constructor. exists (PStr "concert a"), (PInt 250), "250".
    by split_and!.
Defined.

(** X17.  On a valid command line, when the rising table has rows and
    one of them has no query or no value, the rising program exits with
    status 1 and writes nothing, whatever the other rows hold. *)
Theorem rising_missing_column pytrends today a r d rq df :
  valid_command a r d → arg_prefer_youtube a = false →
  tr_init pytrends = Ok () →
  tr_build_payload pytrends [""] 0 ("now " +:+ default "7" (arg_days a) +:+ "-d")
    (geo_of r) "youtube" = Ok () →
  tr_related_queries pytrends = Ok rq →
  rising_of "" rq = Some df → df_empty df = false →
  Exists lacks_column (rows df) →
  exit_code (Rising.main pytrends today a) = 1
  ∧ written (Rising.main pytrends today a) = []
  ∧ ∃ e, LogFatal e ∈ narrated (Rising.main pytrends today a).
Proof.
  intros (Hx & Hr & Hin & Hd) Hflag Hinit Hb Hq Hrising He Hbad.
  pose proof (rising_parse_args_ok a r Hx Hflag Hr Hin) as Hparse.
  change (geo_of r) with (default "KR" (Rising.REGION_GEO_MAP !! r)) in Hb.
  destruct (rising_rows_loop_lacking today _ (mkResult r d [] []) Hbad) as [e Hloop].
  edestruct (run_traced_all (Rising.main pytrends today a) (Exit 1))
    as (-> & -> & _ & ->); [rising_run; by split_and!|reflexivity..|].
  split_and!; [done..|]. exists e. set_solver.
Qed.

Lemma rising_missing_column_witness :
  exit_code (Rising.main valueless_source "2026-01-07" kr7) = 1
  ∧ written (Rising.main valueless_source "2026-01-07" kr7) = []
  ∧ ∃ e, LogFatal e ∈ narrated (Rising.main valueless_source "2026-01-07" kr7).
Proof.
  apply (rising_missing_column valueless_source "2026-01-07" kr7 "KR" 7
           {[ "" := {[ "rising" := Some valueless_table ]} ]} valueless_table);
    try reflexivity.
  - split_and!; try reflexivity. repeat constructor.
  - apply Exists_cons_hd. right. reflexivity.
Defined.

(** X18.  The exit status of the rising program is 0, 1 or 2, and 2
    exactly when argparse rejects the command line (a stray argument,
    the flag of the other script, no region, or a region other than KR,
    US, MX).  A run either makes no request and exits with a status
    other than 0, or its requests are the first one, two or three of:
    building the client, the payload for the empty seed over the day
    count as typed on the command line, the related queries.  A run
    that exits with status 0 has made all three, in that order. *)
Theorem rising_exit_status_and_requests pytrends today a :
  let p := Rising.main pytrends today a in
  (exit_code p = 0 ∨ exit_code p = 1 ∨ exit_code p = 2)
  ∧ (exit_code p = 2
     ↔ ¬ ∃ r, arg_extra a = [] ∧ arg_prefer_youtube a = false
              ∧ arg_region a = Some r ∧ r ∈ supported)
  ∧ ((contacted p = [] ∧ exit_code p ≠ 0)
     ∨ ∃ r n, arg_region a = Some r ∧ (1 ≤ n ≤ 3)%nat
              ∧ contacted p = take n (rising_order (geo_of r) (default "7" (arg_days a)))
              ∧ (exit_code p = 0 → n = 3%nat))
  ∧ (exit_code p = 0 →
     ∃ r, arg_region a = Some r ∧ r ∈ supported
          ∧ contacted p = rising_order (geo_of r) (default "7" (arg_days a))).
Proof.
  cbv zeta.
  destruct (rising_main_outcomes pytrends today a)
    as [[Hrej Hrun]|(r & Hx & Hflag & Hr & Hin
         & [(e & Hd & Hrun)|(d & Hd & o & errs & n & docs & Hrun & Hn & Ho)])];
    apply run_traced in Hrun as (-> & _ & ->).
  - split_and!; [tauto|tauto|by left|done].
  - split_and!; [tauto| |by left|done].
    split; [done|]. intros Hrej. destruct Hrej. eauto 10.
  - assert (Hparse : ∃ r, arg_extra a = [] ∧ arg_prefer_youtube a = false
                          ∧ arg_region a = Some r ∧ r ∈ supported) by eauto 10.
    assert (Hbounds : (1 ≤ n ≤ 3)%nat) by lia.
    destruct Ho as [[-> _]|[(e & -> & _)|(-> & -> & _)]].
    + split_and!; [tauto| |right; exists r, n; split_and!; (done || lia)|done].
      split; [done|tauto].
    + split_and!; [tauto| |right; exists r, n; split_and!; (done || lia)|done].
      split; [done|tauto].
    + split_and!; [tauto| |right; exists r, 3%nat; split_and!; (done || lia)|].
      * split; [done|tauto].
      * intros _. exists r. by split_and!.
Qed.

Lemma rising_exit_status_and_requests_witness :
  ∃ r, arg_region kr7 = Some r ∧ r ∈ supported
       ∧ contacted (Rising.main rising_source "2026-01-07" kr7)
         = rising_order (geo_of r) (default "7" (arg_days kr7)).
Proof.
  destruct (rising_exit_status_and_requests rising_source "2026-01-07" kr7)
    as (_ & _ & _ & H).
  apply H. vm_compute. reflexivity.
Defined.

(** ** The region tables *)

(** X19.  The regions argparse accepts are exactly the keys of both
    region tables, so the defaults given to [.get] are never used; the
    geo identifier of a region is its own code, and no two regions share
    a feed identifier. *)
Theorem region_tables_cover_choices :
  (∀ r, r ∈ supported ↔ is_Some (Trending.REGION_GEO_MAP !! r))
  ∧ (∀ r, r ∈ supported ↔ is_Some (Trending.REGION_PN_MAP !! r))
  ∧ (∀ r, r ∈ supported ↔ is_Some (Rising.REGION_GEO_MAP !! r))
  ∧ (∀ r, r ∈ supported → geo_of r = r)
  ∧ (∀ r r', r ∈ supported → r' ∈ supported → pn_of r = pn_of r' → r = r').
Proof.
  assert (Hdom : ∀ (m : gmap string string) r,
            dom m = list_to_set supported → r ∈ supported ↔ is_Some (m !! r)).
  { intros m r Hm. rewrite <- elem_of_dom, Hm. by rewrite elem_of_list_to_set. }
  assert (Hcases : ∀ r, r ∈ supported → r = "KR" ∨ r = "US" ∨ r = "MX").
  { intros r. unfold supported. set_solver. }
  split_and!.
  - intros r. apply Hdom. by vm_compute.
  - intros r. apply Hdom. by vm_compute.
  - intros r. apply Hdom. by vm_compute.
  - intros r Hr. by destruct (Hcases r Hr) as [-> | [-> | ->]].
  - intros r r' Hr Hr'.
    destruct (Hcases r Hr) as [-> | [-> | ->]], (Hcases r' Hr') as [-> | [-> | ->]];
      by vm_compute.
Qed.

Lemma region_tables_cover_choices_witness : geo_of "US" = "US".
Proof.
  destruct region_tables_cover_choices as (_ & _ & _ & H & _).
  apply H. unfold supported. set_solver.
Defined.

(** ** The tag counts *)

Section TagCounts.
Import TagExperiment.
Implicit Types (vtl : list (list string)) (tag : string).

Lemma tf_cons tags vtl tag :
  tf (tags :: vtl) tag = (length (filter (λ t, t = tag) tags) + tf vtl tag)%nat.
Proof. unfold tf, all_tags. simpl. by rewrite filter_app, length_app. Qed.

Lemma tag_occurs tags tag :
  tag ∈ tags → (1 ≤ length (filter (λ t, t = tag) tags))%nat.
Proof.
  intros Hin. assert (Hf : tag ∈ filter (λ t, t = tag) tags).
  { by apply list_elem_of_filter. }
  destruct (filter _ tags); [by apply elem_of_nil in Hf|simpl; lia].
Qed.

Lemma elem_of_concat_exists tag vtl :
  tag ∈ concat vtl → ∃ tags, tag ∈ tags ∧ tags ∈ vtl.
Proof.
  induction vtl as [|tags vtl IH]; simpl; [by intros ?%elem_of_nil|].
  rewrite elem_of_app. intros [Htag|Htag].
  - exists tags. split; [done|by constructor].
  - destruct (IH Htag) as (tags' & ? & ?). exists tags'. split; [done|by constructor].
Qed.

(** X20.  For every tag the analysis scores (a tag that occurs in some
    video), the number of videos carrying it is at least 1, at most the
    number of videos, and at most the number of occurrences of the tag:
    the ratio [total_docs / df_t] is never a division by zero and is
    never below 1. *)
Theorem document_frequency_bounds vtl tag :
  tag ∈ all_tags vtl →
  (1 ≤ df_t vtl tag)%nat
  ∧ (df_t vtl tag ≤ total_docs vtl)%nat
  ∧ (df_t vtl tag ≤ tf vtl tag)%nat.
Proof.
  intros Hin.
  assert (Hle : (df_t vtl tag ≤ total_docs vtl)%nat ∧ (df_t vtl tag ≤ tf vtl tag)%nat).
  { clear Hin. induction vtl as [|tags vtl [IH1 IH2]]; [done|].
    rewrite tf_cons. unfold df_t, total_docs in *. rewrite filter_cons.
    case_decide as Htag; simpl.
    - pose proof (tag_occurs tags tag Htag). split; lia.
    - split; lia. }
  split; [|done].
  unfold all_tags in Hin. apply elem_of_concat_exists in Hin as (tags & Htag & Htags).
  unfold df_t. assert (Hf : tags ∈ filter (λ tags, tag ∈ tags) vtl).
  { by apply list_elem_of_filter. }
  destruct (filter _ vtl); [by apply elem_of_nil in Hf|simpl; lia].
Qed.

Lemma document_frequency_bounds_witness :
  (1 ≤ df_t [["kpop"; "live"; "kpop"]; []; ["live"]] "kpop")%nat
  ∧ (df_t [["kpop"; "live"; "kpop"]; []; ["live"]] "kpop"
     ≤ total_docs [["kpop"; "live"; "kpop"]; []; ["live"]])%nat
  ∧ (df_t [["kpop"; "live"; "kpop"]; []; ["live"]] "kpop"
     ≤ tf [["kpop"; "live"; "kpop"]; []; ["live"]] "kpop")%nat.
Proof.
  apply document_frequency_bounds. unfold all_tags. simpl. set_solver.
Defined.

Lemma has_char_append c (s1 s2 : string) :
  has_char c (s1 +:+ s2) = has_char c s1 || has_char c s2.
Proof.
  induction s1 as [|a s1 IH]; [done|].
  change (has_char c (String a (s1 +:+ s2))
          = has_char c (String a s1) || has_char c s2).
  simpl. by rewrite IH, orb_assoc.
Qed.

Lemma safe_keyword_facts keyword :
  String.length (safe_keyword keyword) = String.length keyword
  ∧ has_char " " (safe_keyword keyword) = false
  ∧ (has_char " " keyword = false → safe_keyword keyword = keyword).
Proof.
  induction keyword as [|a rest (IH1 & IH2 & IH3)]; [done|]. simpl.
  split_and!.
  - by rewrite IH1.
  - destruct (Ascii.eqb a " ") eqn:Ha; [done|]. by rewrite Ha.
  - destruct (Ascii.eqb a " "); [done|]. simpl. intros Hrest. by rewrite IH3.
Qed.

(** X21.  The keyword part of the file name has the length of the
    keyword and no space, and a keyword without spaces is used as it
    is; so the file name has no space when the date and the region have
    none. *)
Theorem file_name_no_space date_str region keyword :
  String.length (safe_keyword keyword) = String.length keyword
  ∧ has_char " " (safe_keyword keyword) = false
  ∧ (has_char " " keyword = false → safe_keyword keyword = keyword)
  ∧ (has_char " " date_str = false → has_char " " region = false →
     has_char " " (file_name date_str region keyword) = false).
Proof.
  destruct (safe_keyword_facts keyword) as (Hlen & Hsafe & Hid).
  split_and!; [done..|]. intros Hdate Hregion. unfold file_name.
  rewrite !has_char_append, Hdate, Hregion, Hsafe. reflexivity.
Qed.

Lemma file_name_no_space_witness :
  safe_keyword "lofi" = "lofi"
  ∧ has_char " " (file_name "20260107" "KR" "lofi hip hop") = false.
Proof.
  destruct (file_name_no_space "20260107" "KR" "lofi") as (_ & _ & H & _).
  destruct (file_name_no_space "20260107" "KR" "lofi hip hop") as (_ & _ & _ & H').
  split; [apply H|apply H']; reflexivity.
Defined.
End TagCounts.
